(** * Extrator Postgres: query execution and partitioned materialization

    A shallow embedding of [src/Extrator_postgres/database.py]
    ([executar_consultas], [executar_consulta], [processar_dados]) together
    with the parts of pandas, polars, pyarrow and the operating system that
    these functions call, and the properties of the pipeline proved on it.

    Conventions.
    - Python [str] is modelled by byte strings, and the texts of the
      cells are taken to be ASCII: the character classes are the ASCII
      ones, where Python's [\d] and [str.isspace] also accept the digits
      and blanks of other scripts. Paths are those of [posixpath].
    - Code that may raise lives in the state-and-exception monad [M]; a
      [try/except] is the combinator [tenta]. Every exception of the model
      is a subclass of [Exception].
    - The state is the file system, the trace of database and clock events
      and the counter of the dataset writer. What the database answers,
      whether a connection opens, the clock, the configured tenant, the
      type adjustment of module [dicionario_dados] and the text of a cell
      are parameters, gathered in [Ambiente].
    - The dataset writer is the one of pyarrow's dataset API: hive
      directories [column=value], in the order of the partition columns,
      the values percent-encoded, null values in
      [__HIVE_DEFAULT_PARTITION__], new files added to the ones already
      there, and nothing written for a table without rows.
    - The session is a SQLAlchemy [Connection]: an error of the driver
      reaches the caller of [pd.read_sql] wrapped in an exception of
      SQLAlchemy, never as the class of psycopg2.
    - A task of the thread pool runs whole, the tasks one after the other
      in the order the environment gives; how the reads, sleeps and writes
      of tasks that run at the same time interleave is not modelled.
    - Logging calls have no effect on results and are left out. *)

From stdpp Require Import gmap strings list fin_maps sorting.
From Stdlib Require Import ZArith Ascii DecimalString.

Open Scope string_scope.
Open Scope list_scope.

(** ** Python string primitives *)

Module PyStr.

Definition is_digit (c : ascii) : bool :=
  let n := nat_of_ascii c in (48 <=? n)%nat && (n <=? 57)%nat.

(** [str.isspace] on ASCII: tab, LF, VT, FF, CR, FS, GS, RS, US, space. *)
Definition is_space (c : ascii) : bool :=
  let n := nat_of_ascii c in
  ((9 <=? n)%nat && (n <=? 13)%nat) || ((28 <=? n)%nat && (n <=? 32)%nat).

(** [s.replace(" ", "")] *)
Fixpoint remove_espacos (s : string) : string :=
  match s with
  | EmptyString => EmptyString
  | String c s' =>
      if Ascii.eqb c " "%char then remove_espacos s'
      else String c (remove_espacos s')
  end.

Definition fecha (cur : string) : list string :=
  match cur with EmptyString => [] | _ => [cur] end.

(** [s.split()] with no separator: maximal runs of non-blank characters. *)
Fixpoint split_go (cur : string) (s : string) : list string :=
  match s with
  | EmptyString => fecha cur
  | String c s' =>
      if is_space c then fecha cur ++ split_go EmptyString s'
      else split_go (cur +:+ String c EmptyString) s'
  end.

Definition split (s : string) : list string := split_go EmptyString s.

(** [str(n)] for a natural number and for an integer. *)
Definition dec (n : nat) : string :=
  NilZero.string_of_uint (Nat.to_uint n).

Definition decZ (z : Z) : string :=
  if (z <? 0)%Z then "-" +:+ dec (Z.to_nat (- z)) else dec (Z.to_nat z).

Fixpoint zeros (n : nat) : string :=
  match n with O => EmptyString | S n' => String "0"%char (zeros n') end.

(** Format spec [{n:0w}]: zero-padded on the left to at least [w] digits. *)
Definition pad (w n : nat) : string :=
  let s := dec n in zeros (w - String.length s) +:+ s.

(** Percent-encoding of a partition value, as Arrow's hive partitioning
    writes it: letters, digits and [-._~] stay, every other byte becomes
    [%XX] with upper-case hexadecimal digits. *)
Definition is_unreserved (c : ascii) : bool :=
  let n := nat_of_ascii c in
  ((48 <=? n)%nat && (n <=? 57)%nat) || ((65 <=? n)%nat && (n <=? 90)%nat)
  || ((97 <=? n)%nat && (n <=? 122)%nat)
  || (n =? 45)%nat || (n =? 46)%nat || (n =? 95)%nat || (n =? 126)%nat.

Definition hex_digit (n : nat) : ascii :=
  ascii_of_nat (if (n <? 10)%nat then (48 + n)%nat else (55 + n)%nat).

Fixpoint uri_escape (s : string) : string :=
  match s with
  | EmptyString => EmptyString
  | String c s' =>
      if is_unreserved c then String c (uri_escape s')
      else let n := nat_of_ascii c in
           String "%" (String (hex_digit (Nat.div n 16))
                         (String (hex_digit (Nat.modulo n 16)) (uri_escape s')))
  end.

(** [str.startswith] / [str.endswith] for the one-character separator. *)
Definition startswith_sep (s : string) : bool :=
  match s with String c _ => Ascii.eqb c "/"%char | _ => false end.

Fixpoint endswith_sep (s : string) : bool :=
  match s with
  | EmptyString => false
  | String c EmptyString => Ascii.eqb c "/"%char
  | String _ s' => endswith_sep s'
  end.

(** [os.path.join(a, b)] of [posixpath]. *)
Definition path_join (a b : string) : string :=
  if startswith_sep b then b
  else if (String.eqb a EmptyString || endswith_sep a)%bool then a +:+ b
  else a +:+ "/" +:+ b.

(** One match attempt of the pattern [\d{2}:\d{2}:\d{2}] at the head. *)
Definition casa_hora (s : string) : bool :=
  match s with
  | String a (String b (String c1 (String c (String d
      (String c2 (String e (String f _))))))) =>
      is_digit a && is_digit b && Ascii.eqb c1 ":"%char &&
      is_digit c && is_digit d && Ascii.eqb c2 ":"%char &&
      is_digit e && is_digit f
  | _ => false
  end.

(** [re.search(r"(\d{2}:\d{2}:\d{2})", s)]: the leftmost match, if any. *)
Fixpoint procura_hora (s : string) : option string :=
  if casa_hora s then Some (String.substring 0 8 s)
  else match s with
       | EmptyString => None
       | String _ s' => procura_hora s'
       end.

(** No blank character in [s]. *)
Fixpoint sem_espaco (s : string) : bool :=
  match s with
  | EmptyString => true
  | String c s' => negb (is_space c) && sem_espaco s'
  end.

(** Exactly two decimal digits. *)
Definition dois_digitos (s : string) : bool :=
  match s with
  | String a (String b EmptyString) => is_digit a && is_digit b
  | _ => false
  end.

(** ["{h:02}:{m:02}:{s:02}"] *)
Definition hh_mm_ss (h m s : nat) : string :=
  pad 2 h +:+ ":" +:+ pad 2 m +:+ ":" +:+ pad 2 s.

End PyStr.

(** ** Cell values, pandas series and frames *)

(** The values a cell can hold: SQL NULL / [None] / [NaT], integers, text,
    calendar dates ([datetime.date]), times of day ([datetime.time], with
    microseconds) and durations (nanoseconds). *)
Inductive valor :=
  | VNulo
  | VInt (z : Z)
  | VTexto (s : string)
  | VData (ano mes dia : nat)
  | VHora (h m s us : nat)
  | VDuracao (ns : Z).

#[global] Instance valor_eq_dec : EqDecision valor.
Proof. solve_decision. Defined.

(** [str(pandas.Timedelta)], i.e. [_repr_base(format="long")]:
    ["{days} days{sign}{hours:02}:{minutes:02}:{seconds:02}"], followed by
    [".{ms:03}{us:03}"] when there is a sub-second part and by [{ns:03}]
    when there are nanoseconds; [sign] is " +" for negative days, else " ".
    The components are those of floor division. *)
Definition str_timedelta (ns : Z) : string :=
  let dias := (ns / 86400000000000)%Z in
  let r := (ns mod 86400000000000)%Z in
  let h := Z.to_nat (r / 3600000000000) in
  let mi := Z.to_nat (r / 60000000000 mod 60) in
  let s := Z.to_nat (r / 1000000000 mod 60) in
  let ms := Z.to_nat (r / 1000000 mod 1000) in
  let us := Z.to_nat (r / 1000 mod 1000) in
  let n := Z.to_nat (r mod 1000) in
  let sinal := if (dias <? 0)%Z then " +" else " " in
  let fracao :=
    if ((ms =? 0)%nat && (us =? 0)%nat && (n =? 0)%nat)%bool then ""
    else "." +:+ PyStr.pad 3 ms +:+ PyStr.pad 3 us +:+
         (if (n =? 0)%nat then "" else PyStr.pad 3 n) in
  PyStr.decZ dias +:+ " days" +:+ sinal +:+ PyStr.hh_mm_ss h mi s +:+ fracao.

(** [str(x)] for the objects held by an object column. *)
Definition py_str (v : valor) : string :=
  match v with
  | VNulo => "None"
  | VInt z => PyStr.decZ z
  | VTexto s => s
  | VData a m d => PyStr.pad 4 a +:+ "-" +:+ PyStr.pad 2 m +:+ "-" +:+ PyStr.pad 2 d
  | VHora h m s us =>
      PyStr.hh_mm_ss h m s +:+ (if (us =? 0)%nat then "" else "." +:+ PyStr.pad 6 us)
  | VDuracao ns => str_timedelta ns
  end.

(** A pandas Series, by dtype: [int64], [timedelta64[ns]] ([None] is
    [NaT]) and [object]. *)
Inductive Serie :=
  | SInt64 (xs : list Z)
  | STimedelta64 (xs : list (option Z))
  | SObject (xs : list valor).

Definition serie_len (s : Serie) : nat :=
  match s with
  | SInt64 xs => length xs
  | STimedelta64 xs => length xs
  | SObject xs => length xs
  end.

(** A pandas DataFrame: its columns in order, labels possibly repeated (as
    a SQL select list allows). *)
Definition PdFrame := list (string * Serie).

Definition pd_columns (df : PdFrame) : list string := df.*1.

(** [len(df)] *)
Definition pd_len (df : PdFrame) : nat :=
  match df with [] => 0 | (_, s) :: _ => serie_len s end.

(** [df.empty]: some axis has length 0. *)
Definition pd_empty (df : PdFrame) : bool := (pd_len df =? 0)%nat.

(** A polars DataFrame (and the Arrow table made from it): named columns
    of cells. *)
Definition PlFrame := list (string * list valor).

Definition schema (df : PlFrame) : list string := df.*1.

Definition altura (df : PlFrame) : nat :=
  match df with [] => 0 | (_, vs) :: _ => length vs end.

(** ** Exceptions and the monad of effects *)

Inductive classe :=
  | OperationalError      (* psycopg2.OperationalError and its subclasses *)
  | DBAPIError            (* sqlalchemy.exc.DBAPIError and its subclasses, among
                             them sqlalchemy.exc.OperationalError *)
  | ValueError
  | AttributeError
  | IndexError
  | KeyError
  | FileNotFoundError
  | ColumnNotFoundError
  | OutraExcecao.         (* any other subclass of Exception *)

#[global] Instance classe_eq_dec : EqDecision classe.
Proof. solve_decision. Defined.

Record excecao := Exc { classe_de : classe; mensagem : string }.

Inductive resultado (A : Type) :=
  | Ok (a : A)
  | Erro (e : excecao).
Arguments Ok {A} a.
Arguments Erro {A} e.

(** Whether a computation returned rather than raised. *)
Definition sucedeu {A} (r : resultado A) : bool :=
  match r with Ok _ => true | Erro _ => false end.

(** One partition file of a dataset directory: the directories below the
    dataset root that lead to it, its base name and its rows (the
    partition columns are not stored in the file). *)
Record Arquivo := MkArquivo {
  dir : list string;
  base : string;
  linhas : list (list valor)
}.

Inductive evento :=
  | EAbre (c : nat)                          (* engine.connect() *)
  | EFecha (c : nat)                         (* conexao.close() *)
  | ELeitura (c : nat) (q : option string)   (* pd.read_sql(q, con=c) *)
  | EDorme (segundos : nat).                 (* time.sleep *)

#[global] Instance evento_eq_dec : EqDecision evento.
Proof. solve_decision. Defined.

(** The state the program acts on. Directories are identified by their
    path string: [fs !! p] is the list of files below directory [p], and
    is absent when [p] does not exist; different strings stand for
    unrelated directories. [hist] is the trace of database and clock
    events, oldest first; [guid] numbers the calls of the dataset
    writer. *)
Record Mundo := MkMundo {
  fs : gmap string (list Arquivo);
  hist : list evento;
  guid : nat
}.

Definition M (A : Type) : Type := Mundo -> resultado A * Mundo.

Definition ret {A} (a : A) : M A := fun w => (Ok a, w).

Definition bind {A B} (m : M A) (k : A -> M B) : M B :=
  fun w => match m w with
           | (Ok a, w') => k a w'
           | (Erro e, w') => (Erro e, w')
           end.

Definition raise {A} (e : excecao) : M A := fun w => (Erro e, w).

(** [try: corpo  except ...: trata] *)
Definition tenta {A} (corpo : M A) (trata : excecao -> M A) : M A :=
  fun w => match corpo w with
           | (Ok a, w') => (Ok a, w')
           | (Erro e, w') => trata e w'
           end.

Definition eleva {A} (r : resultado A) : M A := fun w => (r, w).

Definition registra (e : evento) : M unit :=
  fun w => (Ok tt, MkMundo (fs w) (hist w ++ [e]) (guid w)).

Declare Scope m_scope.
Delimit Scope m_scope with M.
Notation "x <- c1 ;; c2" := (bind c1 (fun x => c2))
  (at level 100, c1 at next level, right associativity) : m_scope.
Notation "c1 ;;; c2" := (bind c1 (fun _ => c2))
  (at level 100, right associativity) : m_scope.
Open Scope m_scope.

(** ** The collaborators outside [database.py] *)

(** Everything the three functions take from their surroundings.
    - [banco]: what the database and its driver answer to the statement
      of [pd.read_sql(query, con=conexao)], given the trace so far, the
      connection and the query text ([None] when the query dict has no
      ["query"] key); a lost connection is the [OperationalError] of the
      driver.
    - [motor]: whether [engine.connect()] fails, given the trace so far.
    - [relogio]: [datetime.now(...).strftime("%d/%m/%Y %H:%M:%S")].
    - [idemp]: [STORAGE_CONFIG["idemp"]] of module [config].
    - [ajustar_tipos_dados]: the function of that name of module
      [dicionario_dados], a pure mapping keyed by the dataset name.
    - [texto_utf8]: the text polars and Arrow give a cell ([cast(pl.Utf8)],
      and the value part of a partition directory name); [None] is null.
    - [escalonador]: the order in which the thread pool completes tasks. *)
Record Ambiente := MkAmbiente {
  banco : list evento -> nat -> option string -> resultado PdFrame;
  motor : list evento -> option excecao;
  relogio : list evento -> string;
  idemp : valor;
  ajustar_tipos_dados : PlFrame -> string -> resultado PlFrame;
  texto_utf8 : valor -> option string;
  escalonador : list (gmap string string) -> list (gmap string string)
}.

(** ** pandas and polars operations used by the code *)

(** [x in df.columns] *)
Definition contem (x : string) (l : list string) : bool := bool_decide (x ∈ l).

(** [df[nome]]: the Series of that label, or (for a repeated label) a
    DataFrame, which has no [dtype]. *)
Inductive selecao :=
  | UmaSerie (s : Serie)
  | VariasColunas
  | SemColuna.

Definition pd_getitem (nome : string) (df : PdFrame) : selecao :=
  match filter (fun c => c.1 = nome) df with
  | [] => SemColuna
  | [(_, s)] => UmaSerie s
  | _ => VariasColunas
  end.

(** [df[nome] = s] for a label present exactly once: in-place replacement. *)
Definition pd_setitem (nome : string) (s : Serie) (df : PdFrame) : PdFrame :=
  (fun c => if decide (c.1 = nome) then (c.1, s) else c) <$> df.

(** [lambda x: str(x).split()[-1] if not pd.isna(x) else "00:00:00"] *)
Definition lambda_hora (x : option Z) : resultado valor :=
  match x with
  | None => Ok (VTexto "00:00:00")
  | Some ns =>
      match last (PyStr.split (str_timedelta ns)) with
      | Some t => Ok (VTexto t)
      | None => Erro (Exc IndexError "list index out of range")
      end
  end.

(** [Series.apply(f)]: the first exception raised by [f] propagates. *)
Fixpoint apply {A B} (f : A -> resultado B) (xs : list A) : resultado (list B) :=
  match xs with
  | [] => Ok []
  | x :: xs' =>
      match f x with
      | Erro e => Erro e
      | Ok y => match apply f xs' with
                | Erro e => Erro e
                | Ok ys => Ok (y :: ys)
                end
      end
  end.

(** [.astype(str).str.extract(r"(\d{2}:\d{2}:\d{2})")[0].fillna("00:00:00")]
    on one cell. *)
Definition extrai_hora (v : valor) : valor :=
  match PyStr.procura_hora (py_str v) with
  | Some t => VTexto t
  | None => VTexto "00:00:00"
  end.

(** The [HoraVenda] block of [processar_dados]. *)
Definition normaliza_hora_venda (df_pandas : PdFrame) : resultado PdFrame :=
  if contem "HoraVenda" (pd_columns df_pandas) then
    match pd_getitem "HoraVenda" df_pandas with
    | UmaSerie (STimedelta64 xs) =>
        match apply lambda_hora xs with
        | Ok ys => Ok (pd_setitem "HoraVenda" (SObject ys) df_pandas)
        | Erro e => Erro e
        end
    | UmaSerie (SObject xs) =>
        Ok (pd_setitem "HoraVenda" (SObject (extrai_hora <$> xs)) df_pandas)
    | UmaSerie (SInt64 _) => Ok df_pandas
    | VariasColunas =>
        Erro (Exc AttributeError "'DataFrame' object has no attribute 'dtype'")
    | SemColuna => Erro (Exc KeyError "HoraVenda")
    end
  else Ok df_pandas.

Definition celulas (s : Serie) : list valor :=
  match s with
  | SInt64 xs => VInt <$> xs
  | STimedelta64 xs => (fun x => from_option VDuracao VNulo x) <$> xs
  | SObject xs => xs
  end.

(** [pl.from_pandas(df)]: column labels must be unique. *)
Definition from_pandas (df : PdFrame) : resultado PlFrame :=
  if bool_decide (NoDup (pd_columns df))
  then Ok ((fun c => (c.1, celulas c.2)) <$> df)
  else Erro (Exc ValueError "Duplicate column names found").

(** [pl.col(nome)] evaluated on a frame. *)
Definition pl_col (nome : string) (df : PlFrame) : resultado (list valor) :=
  match list_find (fun c => c.1 = nome) df with
  | Some (_, c) => Ok c.2
  | None => Erro (Exc ColumnNotFoundError nome)
  end.

(** [pl.lit(v)] broadcast to the height of the frame (one row when the
    frame has no column). *)
Definition pl_lit (v : valor) (df : PlFrame) : list valor :=
  replicate (match df with [] => 1 | _ => altura df end) v.

(** [df.with_columns(expr.alias(nome))] for an evaluated expression: the
    column of that name is replaced where it stands, or else appended. *)
Definition with_column (nome : string) (vs : list valor) (df : PlFrame) : PlFrame :=
  if contem nome (schema df)
  then (fun c => if decide (c.1 = nome) then (nome, vs) else c) <$> df
  else df ++ [(nome, vs)].

Definition with_columns (novas : list (string * list valor)) (df : PlFrame) : PlFrame :=
  foldl (fun d c => with_column c.1 c.2 d) df novas.

(** [.cast(pl.Utf8)] and [.str.slice(offset, length)] on one cell. *)
Definition cast_utf8 (amb : Ambiente) (v : valor) : valor :=
  match texto_utf8 amb v with Some s => VTexto s | None => VNulo end.

Definition str_slice (offset len : nat) (v : valor) : valor :=
  match v with
  | VTexto s => VTexto (String.substring offset len s)
  | _ => VNulo
  end.

(** ** The file system and the partitioned writer *)

(** [os.makedirs(p, exist_ok=True)] *)
Definition makedirs (p : string) : M unit :=
  fun w =>
    if String.eqb p "" then (Erro (Exc FileNotFoundError p), w)
    else match fs w !! p with
         | Some _ => (Ok tt, w)
         | None => (Ok tt, MkMundo (<[p := []]> (fs w)) (hist w) (guid w))
         end.

(** The name an entry of a dataset directory shows at the top level. *)
Definition topo (a : Arquivo) : string :=
  match dir a with d :: _ => d | [] => base a end.

(** [os.listdir(p)] *)
Definition listdir (p : string) : M (list string) :=
  fun w =>
    match fs w !! p with
    | Some arqs => (Ok (topo <$> arqs), w)
    | None => (Erro (Exc FileNotFoundError p), w)
    end.

(** Cell [i] of column [c]; null when there is none. *)
Definition celula (df : PlFrame) (c : string) (i : nat) : valor :=
  match list_find (fun x => x.1 = c) df with
  | Some (_, col) => default VNulo (col.2 !! i)
  | None => VNulo
  end.

(** Hive-style directory segment [coluna=valor]. *)
Definition segmento (amb : Ambiente) (c : string) (v : valor) : string :=
  c +:+ "=" +:+ default "__HIVE_DEFAULT_PARTITION__"
                        (PyStr.uri_escape <$> texto_utf8 amb v).

(** The partition directory of row [i]. *)
Definition dir_da_linha (amb : Ambiente) (df : PlFrame)
    (partition_cols : list string) (i : nat) : list string :=
  (fun c => segmento amb c (celula df c i)) <$> partition_cols.

(** What row [i] stores in its file: the cells of the other columns. *)
Definition linha_de_dados (df : PlFrame) (partition_cols : list string)
    (i : nat) : list valor :=
  (fun c => default VNulo (c.2 !! i))
    <$> filter (fun c => c.1 ∉ partition_cols) df.

(** Grouping of the rows by partition directory: the rows are visited in
    order, each one joining the group of its directory, which is opened
    on first use. *)
Fixpoint entra_no_grupo (d : list string) (i : nat)
    (gs : list (list string * list nat)) : list (list string * list nat) :=
  match gs with
  | [] => [(d, [i])]
  | (d', idx) :: gs' =>
      if decide (d = d') then (d', idx ++ [i]) :: gs'
      else (d', idx) :: entra_no_grupo d i gs'
  end.

Definition agrupa (dir_de : nat -> list string) (n : nat)
    : list (list string * list nat) :=
  foldl (fun gs i => entra_no_grupo (dir_de i) i gs) [] (seq 0 n).

(** [pq.write_to_dataset(tabela, root_path=..., partition_cols=...)]: one
    new file per partition directory, named after a fresh identifier and
    added to whatever the dataset directory holds; for a table without
    rows there is no file to write and the dataset directory is not
    created. Compression, dictionary
    encoding and the row-group size do not change which rows a file
    holds. *)
Definition write_to_dataset (amb : Ambiente) (tabela : PlFrame)
    (root_path : string) (partition_cols : list string) : M unit :=
  fun w =>
    match list_find (fun c => c ∉ schema tabela) partition_cols with
    | Some (_, c) => (Erro (Exc KeyError c), w)
    | None =>
        let grupos := agrupa (dir_da_linha amb tabela partition_cols) (altura tabela) in
        let nome_arq := PyStr.dec (guid w) +:+ "-0.parquet" in
        let novos :=
          (fun g => MkArquivo g.1 nome_arq
                      (linha_de_dados tabela partition_cols <$> g.2)) <$> grupos in
        (Ok tt,
         MkMundo (match novos with
                  | [] => fs w
                  | _ => <[root_path := default [] (fs w !! root_path) ++ novos]> (fs w)
                  end)
                 (hist w) (S (guid w)))
    end.

(** What a SQLAlchemy [Connection] makes of an error of the driver: the
    [OperationalError] of psycopg2 is raised as
    [sqlalchemy.exc.OperationalError], which is not a subclass of it. *)
Definition embrulha (e : excecao) : excecao :=
  match classe_de e with
  | OperationalError => Exc DBAPIError (mensagem e)
  | _ => e
  end.

(** ** The three functions of [database.py] *)

Section Pipeline.

Variable amb : Ambiente.

(** The value both the query runner and the materializer return when
    there is nothing to report: [("", set())]. *)
Definition sentinela : string * gset string := ("", ∅).

(** Truth value of [coluna_data], a string or [None]. *)
Definition verdadeiro (o : option string) : bool :=
  match o with
  | Some s => negb (String.eqb s "")
  | None => false
  end.

(** Lines 183-187: the date column of the dataset, if any. *)
Definition escolhe_coluna_data (nome : string) (colunas : list string)
    : option string :=
  if (String.eqb nome "Vendas" && contem "DataVenda" colunas)%bool
  then Some "DataVenda"
  else if (String.eqb nome "Compras" && contem "DataEmissaoNF" colunas)%bool
  then Some "DataEmissaoNF"
  else None.

(** Lines 203-207: the date column becomes text, and [Ano] and [Mes]
    are cut out of it. *)
Definition deriva_ano_mes (coluna_data : string) (df_polars : PlFrame)
    : resultado PlFrame :=
  match pl_col coluna_data df_polars with
  | Erro e => Erro e
  | Ok c =>
      let df1 := with_columns [(coluna_data, cast_utf8 amb <$> c)] df_polars in
      match pl_col coluna_data df1 with
      | Erro e => Erro e
      | Ok t =>
          Ok (with_columns [("Ano", str_slice 0 4 <$> t);
                            ("Mes", str_slice 5 2 <$> t)] df1)
      end
  end.

(** Line 216 *)
Definition partition_cols (coluna_data : option string) : list string :=
  ["idEmpresa"] ++ (if verdadeiro coluna_data then ["Ano"; "Mes"] else []).

(** Lines 196-200: the three injected columns. *)
Definition aumenta (agora : string) (df : PlFrame) : PlFrame :=
  with_columns [("DataHoraAtualizacao", pl_lit (VTexto agora) df);
                ("idEmpresa", pl_lit (idemp amb) df);
                ("idEmp", pl_lit (idemp amb) df)] df.

Definition msg_id_empresa : string :=
  "A coluna 'idEmpresa' é obrigatória para particionamento.".

(** The body of the [try] of [processar_dados] (lines 180-228). *)
Definition processar_dados_corpo (df_pandas : PdFrame) (nome pasta_temp : string)
    : M (string * gset string) :=
  makedirs pasta_temp ;;;
  let pasta_consulta := PyStr.path_join pasta_temp nome in
  let coluna_data := escolhe_coluna_data nome (pd_columns df_pandas) in
  df_pandas <- eleva (normaliza_hora_venda df_pandas) ;;
  df_polars <- eleva (from_pandas df_pandas) ;;
  agora <- (fun w => (Ok (relogio amb (hist w)), w)) ;;
  let df_polars := aumenta agora df_polars in
  df_polars <- (match coluna_data with
                | Some c => if verdadeiro coluna_data
                            then eleva (deriva_ano_mes c df_polars)
                            else ret df_polars
                | None => ret df_polars
                end) ;;
  df_polars <- eleva (ajustar_tipos_dados amb df_polars nome) ;;
  if contem "idEmpresa" (schema df_polars) then
    write_to_dataset amb df_polars pasta_consulta (partition_cols coluna_data) ;;;
    nomes <- listdir pasta_consulta ;;
    let particoes_criadas : gset string :=
      list_to_set (PyStr.path_join pasta_consulta <$> nomes) in
    ret (pasta_consulta, particoes_criadas)
  else raise (Exc ValueError msg_id_empresa).

(** The table handed to the writer when the clock reads [agora]: the
    pure steps of the body, in its order. *)
Definition tabela_final (df_pandas : PdFrame) (nome agora : string)
    : resultado PlFrame :=
  match normaliza_hora_venda df_pandas with
  | Erro e => Erro e
  | Ok df_norm =>
      match from_pandas df_norm with
      | Erro e => Erro e
      | Ok df_polars =>
          let coluna_data := escolhe_coluna_data nome (pd_columns df_pandas) in
          let df_aum := aumenta agora df_polars in
          match (match coluna_data with
                 | Some c => if verdadeiro coluna_data
                             then deriva_ano_mes c df_aum else Ok df_aum
                 | None => Ok df_aum
                 end) with
          | Erro e => Erro e
          | Ok df_part => ajustar_tipos_dados amb df_part nome
          end
      end
  end.

(** The files one call of the writer adds, and the state it leaves. *)
Definition novos_arquivos (tabela : PlFrame) (pcols : list string) (g : nat)
    : list Arquivo :=
  (fun gr => MkArquivo gr.1 (PyStr.dec g +:+ "-0.parquet")
               (linha_de_dados tabela pcols <$> gr.2))
    <$> agrupa (dir_da_linha amb tabela pcols) (altura tabela).

(** [processar_dados]: the body under [except Exception] (lines 230-232). *)
Definition processar_dados (df_pandas : PdFrame) (nome pasta_temp : string)
    : M (string * gset string) :=
  tenta (processar_dados_corpo df_pandas nome pasta_temp)
        (fun _ => ret ("", ∅)).

(** [pd.read_sql(query, con=conexao)] through the SQLAlchemy
    [Connection] that [conectar_ao_banco] returns. *)
Definition read_sql (query : option string) (conexao : nat) : M PdFrame :=
  fun w => (match banco amb (hist w) conexao query with
            | Ok df => Ok df
            | Erro e => Erro (embrulha e)
            end,
            MkMundo (fs w) (hist w ++ [ELeitura conexao query]) (guid w)).

(** [time.sleep(s)] *)
Definition sleep (s : nat) : M unit := registra (EDorme s).

Definition retries : nat := 5.

(** The [for tentativa in range(retries)] loop of [executar_consulta],
    over the attempts still to be made, and what follows it. *)
Fixpoint tentativas (restantes : list nat) (conexao : nat) (nome : string)
    (query : option string) (pasta_temp : string) : M (string * gset string) :=
  match restantes with
  | [] => ret ("", ∅)
  | _ :: restantes' =>
      tenta
        (df_pandas <- read_sql query conexao ;;
         if pd_empty df_pandas then ret ("", ∅)
         else processar_dados df_pandas nome pasta_temp)
        (fun e =>
           match classe_de e with
           | OperationalError =>
               sleep 5 ;;; tentativas restantes' conexao nome query pasta_temp
           | _ => ret ("", ∅)
           end)
  end.

Definition executar_consulta (conexao : nat) (nome : string)
    (query : option string) (pasta_temp : string) : M (string * gset string) :=
  tentativas (seq 0 retries) conexao nome query pasta_temp.

Definition e_abertura (ev : evento) : bool :=
  match ev with EAbre _ => true | _ => false end.

(** [conectar_ao_banco]: the failure of [engine.connect()] is logged and
    raised again. A new connection is numbered by the connections
    opened before it. *)
Definition conectar_ao_banco : M nat :=
  fun w =>
    match motor amb (hist w) with
    | Some e => (Erro e, w)
    | None =>
        let c := length (List.filter e_abertura (hist w)) in
        (Ok c, MkMundo (fs w) (hist w ++ [EAbre c]) (guid w))
    end.

(** [fechar_conexao]: never raises. *)
Definition fechar_conexao (conexao : nat) : M unit := registra (EFecha conexao).

(** The inner function [processa_consulta], which closes over
    [conexao_persistente] and [pasta_temp]. Its second component is the
    dataset path, or [None]. *)
Definition processa_consulta (conexao_persistente : nat) (pasta_temp : string)
    (consulta : gmap string string) : M (string * option string * gset string) :=
  let nome_consulta := PyStr.remove_espacos (default "" (consulta !! "name")) in
  let query := consulta !! "query" in
  tenta
    (r <- executar_consulta conexao_persistente nome_consulta query pasta_temp ;;
     ret (nome_consulta, Some r.1, r.2))
    (fun _ => ret (nome_consulta, None, ∅)).

(** The two dictionaries [resultados] and [particoes_criadas]. *)
Definition Acumulado : Type := gmap string string * gmap string (gset string).

(** [if pasta_consulta: resultados[nome] = ...; particoes_criadas[nome] = ...] *)
Definition junta (acc : Acumulado)
    (r : string * option string * gset string) : Acumulado :=
  if verdadeiro r.1.2
  then (<[r.1.1 := default "" r.1.2]> acc.1, <[r.1.1 := r.2]> acc.2)
  else acc.

(** The sequential loop under [try/except Exception]: an exception
    leaves the loop, keeping what the dictionaries hold. *)
Fixpoint laco_sequencial (conexao_persistente : nat) (pasta_temp : string)
    (consultas : list (gmap string string)) (acc : Acumulado) (w : Mundo)
    : Acumulado * Mundo :=
  match consultas with
  | [] => (acc, w)
  | consulta :: resto =>
      match processa_consulta conexao_persistente pasta_temp consulta w with
      | (Ok r, w') => laco_sequencial conexao_persistente pasta_temp resto (junta acc r) w'
      | (Erro _, w') => (acc, w')
      end
  end.

(** The thread pool: every submitted task runs to its end, one after
    the other in the order given. *)
Fixpoint executa_tarefas (conexao_persistente : nat) (pasta_temp : string)
    (tarefas : list (gmap string string)) (w : Mundo)
    : list (resultado (string * option string * gset string)) * Mundo :=
  match tarefas with
  | [] => ([], w)
  | consulta :: resto =>
      let '(r, w') := processa_consulta conexao_persistente pasta_temp consulta w in
      let '(rs, w'') := executa_tarefas conexao_persistente pasta_temp resto w' in
      (r :: rs, w'')
  end.

(** The [as_completed] loop: [futuro.result()] raises what the task
    raised, which leaves the loop. *)
Fixpoint funde (futuros : list (resultado (string * option string * gset string)))
    (acc : Acumulado) : Acumulado :=
  match futuros with
  | [] => acc
  | Ok r :: resto => funde resto (junta acc r)
  | Erro _ :: _ => acc
  end.

(** [executar_consultas]. [ThreadPoolExecutor(max_workers=workers)]
    raises [ValueError] for a number of workers that is not positive,
    which the handler of line 125 catches: no task is submitted and the
    dictionaries stay empty. Otherwise the tasks are taken in the order
    of [escalonador], each one running whole. *)
Definition executar_consultas (conexoes_config : gmap string string)
    (consultas : list (gmap string string)) (pasta_temp : string)
    (paralela : bool) (workers : nat) : M Acumulado :=
  let resultados : gmap string string := ∅ in
  let particoes_criadas : gmap string (gset string) := ∅ in
  makedirs pasta_temp ;;;
  conexao_persistente <- conectar_ao_banco ;;
  acc <- (fun w =>
            if paralela then
              match workers with
              | 0 => (Ok (resultados, particoes_criadas), w)
              | S _ =>
                  let '(futuros, w') :=
                    executa_tarefas conexao_persistente pasta_temp
                                    (escalonador amb consultas) w in
                  (Ok (funde futuros (resultados, particoes_criadas)), w')
              end
            else
              let '(acc, w') :=
                laco_sequencial conexao_persistente pasta_temp consultas
                                (resultados, particoes_criadas) w in
              (Ok acc, w')) ;;
  fechar_conexao conexao_persistente ;;;
  ret acc.

End Pipeline.

(** The number of rows a dataset directory holds, over all its files. *)
Definition total_linhas (arqs : list Arquivo) : nat :=
  sum_list_with (fun a => length (linhas a)) arqs.

(** The state [w] after the events [evs] and nothing else. *)
Definition com_eventos (w : Mundo) (evs : list evento) : Mundo :=
  MkMundo (fs w) (hist w ++ evs) (guid w).

(** The dataset name [processa_consulta] gives a query dict. *)
Definition nome_da_consulta (consulta : gmap string string) : string :=
  PyStr.remove_espacos (default "" (consulta !! "name")).

(** The events a run may add between opening and closing its connection
    [c]: reads through [c], and sleeps. *)
Definition usa_so (c : nat) (ev : evento) : Prop :=
  match ev with
  | ELeitura c' _ => c' = c
  | EDorme _ => True
  | EAbre _ | EFecha _ => False
  end.

(** What the two dictionaries of a run hold, for the queries [tarefas]
    and the temp root [pasta_temp]: the same keys in both; under a key,
    the dataset root of that name, which is not empty and comes from one
    of the queries; and partition paths one level below that root. *)
Definition resultado_coerente (pasta_temp : string)
    (tarefas : list (gmap string string))
    (acc : gmap string string * gmap string (gset string)) : Prop :=
  ∀ n,
    (acc.1 !! n = None ↔ acc.2 !! n = None) ∧
    (∀ p, acc.1 !! n = Some p →
          p = PyStr.path_join pasta_temp n ∧ p ≠ "" ∧
          ∃ consulta, consulta ∈ tarefas ∧ nome_da_consulta consulta = n) ∧
    (∀ ps x, acc.2 !! n = Some ps → x ∈ ps →
             ∃ m, x = PyStr.path_join (PyStr.path_join pasta_temp n) m).



(** What holds of the groups after the rows [l] have been visited: one
    group per directory, every visited row in one group, and that the
    group of its directory. *)
Definition grupos_ok (f : nat → list string)
    (gs : list (list string * list nat)) (l : list nat) : Prop :=
  NoDup gs.*1 ∧ concat gs.*2 ≡ₚ l ∧
  ∀ d idx j, (d, idx) ∈ gs → j ∈ idx → d = f j.

(** What the result of a run holds for a dataset name in its two
    dictionaries; [None] when the run raised. *)
Definition entradas (r : resultado (gmap string string * gmap string (gset string)))
    (n : string) : option (option string * option (gset string)) :=
  match r with
  | Ok acc => Some (acc.1 !! n, acc.2 !! n)
  | Erro _ => None
  end.

(** ** A concrete environment *)

(** Text of a cell: null has none, the others print as Python prints
    them (ISO dates, decimal integers). *)
Definition texto_exemplo (v : valor) : option string :=
  match v with
  | VNulo => None
  | _ => Some (py_str v)
  end.

(** Three sales, two of them in March 2024 and one without a date. *)
Definition vendas_exemplo : PdFrame :=
  [("Codigo", SInt64 [10; 11; 12]%Z);
   ("DataVenda", SObject [VData 2024 3 15; VData 2024 3 16; VNulo]);
   ("HoraVenda", STimedelta64 [Some 52200000000000; None; Some 1500000000]%Z)].

Definition compras_vazio : PdFrame :=
  [("Codigo", SInt64 []); ("DataEmissaoNF", SObject [])].

Definition clientes_exemplo : PdFrame :=
  [("Codigo", SInt64 [1; 2]%Z); ("HoraVenda", SObject [VHora 9 5 0 120; VTexto "sem hora"])].

(** A database that answers by query text, fails to connect never, and
    drops the tenant column of the dataset named [SemEmpresa]. *)
Definition banco_exemplo (h : list evento) (c : nat) (q : option string)
    : resultado PdFrame :=
  match q with
  | Some "select * from vendas" => Ok vendas_exemplo
  | Some "select * from compras" => Ok compras_vazio
  | Some "select * from clientes" => Ok clientes_exemplo
  | Some "select 1/0" => Erro (Exc OutraExcecao "division by zero")
  | _ => Erro (Exc OperationalError "server closed the connection unexpectedly")
  end.

Definition ajustar_exemplo (df : PlFrame) (nome : string) : resultado PlFrame :=
  if String.eqb nome "SemEmpresa"
  then Ok (filter (fun c => c.1 ≠ "idEmpresa") df)
  else Ok df.

Definition amb_exemplo : Ambiente :=
  MkAmbiente banco_exemplo (fun _ => None) (fun _ => "15/03/2024 10:00:00")
             (VInt 7) ajustar_exemplo texto_exemplo (@rev _).

Definition mundo_vazio : Mundo := MkMundo ∅ [] 0.

Definition consulta (nome query : string) : gmap string string :=
  {["name" := nome; "query" := query]}.

(** The same environment with a pool that completes its tasks in the
    order of submission. *)
Definition amb_em_ordem : Ambiente :=
  MkAmbiente banco_exemplo (fun _ => None) (fun _ => "15/03/2024 10:00:00")
             (VInt 7) ajustar_exemplo texto_exemplo (fun l => l).

(** An environment whose database cannot be reached. *)
Definition amb_sem_banco : Ambiente :=
  MkAmbiente banco_exemplo
             (fun _ => Some (Exc OperationalError "could not connect to server"))
             (fun _ => "15/03/2024 10:00:00")
             (VInt 7) ajustar_exemplo texto_exemplo (fun l => l).


(** The table the writer gets for the dataset [Vendas]. *)
Definition tabela_vendas : PlFrame :=
  match tabela_final amb_exemplo vendas_exemplo "Vendas" "15/03/2024 10:00:00" with
  | Ok t => t
  | Erro _ => []
  end.

(** A state in which the dataset [Vendas] holds one file of one row. *)
Definition mundo_com_vendas : Mundo :=
  MkMundo {["tmp" := []; "tmp/Vendas" := [MkArquivo ["idEmpresa=7"] "0-0.parquet" [[VInt 9]]]]}
          [] 1.

(** A run of two queries. *)
Definition duas_consultas : list (gmap string string) :=
  [consulta "Vendas" "select * from vendas";
   consulta "Clientes" "select * from clientes"].

(** * Properties *)

(** ** Python strings *)

Lemma append_assoc (a b c : string) : (a +:+ b) +:+ c = a +:+ (b +:+ c).
Proof.
  induction a as [|x a IH]; [done |].
  change (String x ((a +:+ b) +:+ c) = String x (a +:+ b +:+ c)). by rewrite IH.
Qed.

Lemma fecha_app_ne cur c : PyStr.fecha (cur +:+ String c "") ≠ [].
Proof. destruct cur; simpl; discriminate. Qed.

Lemma split_go_cur_ne cur s : cur ≠ "" → PyStr.split_go cur s ≠ [].
Proof.
  revert cur. induction s as [|c s IH]; intros cur Hc; simpl.
  - destruct cur; [done | discriminate].
  - destruct (PyStr.is_space c).
    + destruct cur; [done | simpl; discriminate].
    + apply IH. destruct cur; discriminate.
Qed.

(** A string with a non-blank character has at least one token. *)
Lemma split_go_nonblank cur a c b :
  PyStr.is_space c = false → PyStr.split_go cur (a +:+ String c b) ≠ [].
Proof.
  revert cur. induction a as [|x a IH]; intros cur Hc; simpl.
  - rewrite Hc. apply split_go_cur_ne. destruct cur; discriminate.
  - destruct (PyStr.is_space x).
    + intros H. apply app_eq_nil in H as [_ H]. by eapply IH.
    + by apply IH.
Qed.

Lemma str_timedelta_tem_token ns : PyStr.split (str_timedelta ns) ≠ [].
Proof.
  unfold PyStr.split, str_timedelta.
  set (d := PyStr.decZ _). set (r := (if (_ <? 0)%Z then _ else _) +:+ _).
  change (d +:+ " days" +:+ r) with (d +:+ String " " (String "d" ("ays" +:+ r))).
  replace (d +:+ String " " (String "d" ("ays" +:+ r)))
    with ((d +:+ " ") +:+ String "d" ("ays" +:+ r)).
  - by apply split_go_nonblank.
  - by rewrite append_assoc.
Qed.

(** The function applied to a duration cell never raises. *)
Lemma lambda_hora_total x : ∃ t, lambda_hora x = Ok (VTexto t).
Proof.
  destruct x as [ns|]; simpl; [| by eexists].
  destruct (last (PyStr.split (str_timedelta ns))) as [t|] eqn:E; [by eexists |].
  apply last_None in E. by apply str_timedelta_tem_token in E.
Qed.

Lemma apply_lambda_hora_total xs : ∃ ys, apply lambda_hora xs = Ok ys.
Proof.
  induction xs as [|x xs [ys IH]]; simpl; [by eexists |].
  destruct (lambda_hora_total x) as [t ->]. rewrite IH. by eexists.
Qed.

(** ** Grouping of rows by partition directory *)

Section Agrupa.

Implicit Types (gs : list (list string * list nat)) (d : list string).

Lemma entra_fst d i gs :
  (entra_no_grupo d i gs).*1 = if decide (d ∈ gs.*1) then gs.*1 else gs.*1 ++ [d].
Proof.
  induction gs as [|[d' idx] gs IH]; csimpl.
  - destruct (decide (d ∈ [])) as [H|H]; [by apply elem_of_nil in H | done].
  - destruct (decide (d = d')) as [->|Hne]; csimpl.
    + rewrite decide_True; [done | apply list_elem_of_here].
    + rewrite IH. destruct (decide (d ∈ gs.*1)) as [Hin|Hnin].
      * rewrite decide_True; [done | by apply list_elem_of_further].
      * rewrite decide_False; [done |].
        intros [?|?]%elem_of_cons; congruence.
Qed.

Lemma entra_perm d i gs :
  concat (entra_no_grupo d i gs).*2 ≡ₚ concat gs.*2 ++ [i].
Proof.
  induction gs as [|[d' idx] gs IH]; csimpl; [done |].
  destruct (decide (d = d')); csimpl.
  - rewrite <- !(assoc (++)). apply Permutation_app_head, Permutation_app_comm.
  - by rewrite IH, (assoc (++)).
Qed.

Lemma entra_elem d i gs d' idx j :
  (d', idx) ∈ entra_no_grupo d i gs → j ∈ idx →
  (j = i ∧ d' = d) ∨ ∃ idx0, (d', idx0) ∈ gs ∧ j ∈ idx0.
Proof.
  induction gs as [|[d0 idx0] gs IH]; csimpl.
  - intros [= -> ->]%list_elem_of_singleton ->%list_elem_of_singleton. by left.
  - destruct (decide (d = d0)) as [->|Hne].
    + intros [Heq|Hin]%elem_of_cons Hj.
      * injection Heq as -> ->. apply elem_of_app in Hj as [Hj|Hj].
        -- right. exists idx0. split; [apply list_elem_of_here | done].
        -- apply list_elem_of_singleton in Hj. by left.
      * right. exists idx. split; [by apply list_elem_of_further | done].
    + intros [Heq|Hin]%elem_of_cons Hj.
      * injection Heq as -> ->. right. exists idx0.
        split; [apply list_elem_of_here | done].
      * destruct (IH Hin Hj) as [?|(idx1 & ? & ?)]; [by left |].
        right. exists idx1. split; [by apply list_elem_of_further | done].
Qed.

Lemma entra_ok f gs l i :
  grupos_ok f gs l → grupos_ok f (entra_no_grupo (f i) i gs) (l ++ [i]).
Proof.
  intros (Hnd & Hp & Hd). split_and!.
  - rewrite entra_fst. destruct (decide (f i ∈ gs.*1)) as [Hin|Hin]; [done |].
    apply NoDup_app. split_and!; [done | | apply NoDup_singleton].
    intros x Hx ->%list_elem_of_singleton. done.
  - by rewrite entra_perm, Hp.
  - intros d idx j Hin Hj.
    destruct (entra_elem _ _ _ _ _ _ Hin Hj) as [[-> ->]|(idx0 & ? & ?)]; [done |].
    by eapply Hd.
Qed.

Lemma foldl_entra_ok f l gs l0 :
  grupos_ok f gs l0 →
  grupos_ok f (foldl (fun gs i => entra_no_grupo (f i) i gs) gs l) (l0 ++ l).
Proof.
  revert gs l0. induction l as [|i l IH]; intros gs l0 H; csimpl.
  - by rewrite app_nil_r.
  - rewrite (cons_middle i l0 l), (assoc (++)). apply IH. by apply entra_ok.
Qed.

Lemma agrupa_ok f n : grupos_ok f (agrupa f n) (seq 0 n).
Proof.
  unfold agrupa. apply (foldl_entra_ok f (seq 0 n) [] []).
  split_and!; [by apply NoDup_nil | done | ].
  intros d idx j Hin. by apply elem_of_nil in Hin.
Qed.

Lemma length_concat_sum {A} (ls : list (list A)) :
  length (concat ls) = sum_list_with length ls.
Proof.
  induction ls as [|l ls IH]; csimpl; [done |]. by rewrite length_app, IH.
Qed.

Lemma elem_of_concat {A} (x : A) (ls : list (list A)) :
  x ∈ concat ls → ∃ l, x ∈ l ∧ l ∈ ls.
Proof.
  induction ls as [|l ls IH]; csimpl.
  - by intros ?%elem_of_nil.
  - intros [H|H]%elem_of_app.
    + exists l. split; [done | apply list_elem_of_here].
    + destruct (IH H) as (l' & ? & ?). exists l'.
      split; [done | by apply list_elem_of_further].
Qed.

(** Every row is in the group of its own directory. *)
Lemma agrupa_cobre f n i :
  i < n → ∃ idx, (f i, idx) ∈ agrupa f n ∧ i ∈ idx.
Proof.
  intros Hi. destruct (agrupa_ok f n) as (_ & Hp & Hd).
  assert (i ∈ concat (agrupa f n).*2) as Hin.
  { rewrite Hp. apply elem_of_seq. lia. }
  apply elem_of_concat in Hin as (idx & Hi' & Hidx).
  apply list_elem_of_fmap in Hidx as ([d idx'] & -> & Hg). csimpl in *.
  exists idx'. split; [| done]. by rewrite <- (Hd d idx' i Hg Hi').
Qed.

Lemma agrupa_total f n :
  sum_list_with (fun g => length g.2) (agrupa f n) = n.
Proof.
  destruct (agrupa_ok f n) as (_ & Hp & _).
  assert (length (concat (agrupa f n).*2) = n) as Hn.
  { rewrite Hp. apply length_seq. }
  rewrite length_concat_sum in Hn. rewrite <- Hn at 2. clear.
  generalize (agrupa f n). intros gs. induction gs as [|g gs IH]; csimpl; [done |].
  by rewrite IH.
Qed.

Lemma entra_nao_vazio d i gs :
  Forall (fun g => g.2 ≠ []) gs → Forall (fun g => g.2 ≠ []) (entra_no_grupo d i gs).
Proof.
  induction gs as [|[d' idx] gs IH]; csimpl; intros H.
  - by apply Forall_singleton.
  - apply Forall_cons in H as [H1 H2]. destruct (decide (d = d')).
    + apply Forall_cons. split; [| done]. simpl. by destruct idx.
    + apply Forall_cons. split; [done | by apply IH].
Qed.

Lemma foldl_entra_nao_vazio f l gs :
  Forall (fun g => g.2 ≠ []) gs →
  Forall (fun g => g.2 ≠ []) (foldl (fun gs i => entra_no_grupo (f i) i gs) gs l).
Proof.
  revert gs. induction l as [|i l IH]; intros gs H; csimpl; [done |].
  by apply IH, entra_nao_vazio.
Qed.

(** Every group is the directory of one of the rows. *)
Lemma agrupa_dir f n d idx :
  (d, idx) ∈ agrupa f n → ∃ j, j < n ∧ j ∈ idx ∧ d = f j.
Proof.
  intros Hin. destruct (agrupa_ok f n) as (_ & Hp & Hd).
  assert (idx ≠ []) as Hne.
  { pose proof (foldl_entra_nao_vazio f (seq 0 n) [] (Forall_nil_2 _)) as H.
    rewrite Forall_forall in H. apply (H (d, idx) Hin). }
  destruct idx as [|j idx]; [done |]. exists j.
  assert (j ∈ j :: idx) as Hj by apply list_elem_of_here.
  split_and!; [| done | by eapply Hd].
  assert (j ∈ concat (agrupa f n).*2) as Hc.
  { apply list_elem_of_In, in_concat. exists (j :: idx).
    split; [| by left]. apply list_elem_of_In, list_elem_of_fmap.
    by exists (d, j :: idx). }
  rewrite Hp in Hc. apply elem_of_seq in Hc. lia.
Qed.

End Agrupa.

Lemma contem_spec x l : contem x l = true ↔ x ∈ l.
Proof. unfold contem. apply bool_decide_eq_true. Qed.

Lemma contem_false x l : contem x l = false ↔ x ∉ l.
Proof. unfold contem. apply bool_decide_eq_false. Qed.

(** ** The [HoraVenda] column *)

Lemma casa_hora_substring s :
  PyStr.casa_hora s = true →
  PyStr.casa_hora (String.substring 0 8 s) = true ∧
  String.length (String.substring 0 8 s) = 8.
Proof.
  destruct s as [|a [|b [|c1 [|c [|d [|c2 [|e [|f r]]]]]]]]; try discriminate.
  intros H. split; [exact H | by destruct r].
Qed.

Lemma procura_hora_forma s t :
  PyStr.procura_hora s = Some t → PyStr.casa_hora t = true ∧ String.length t = 8.
Proof.
  induction s as [|x s IH]; cbn [PyStr.procura_hora].
  - discriminate.
  - destruct (PyStr.casa_hora (String x s)) eqn:E.
    + intros [= Ht]. rewrite <- Ht. exact (casa_hora_substring (String x s) E).
    + exact IH.
Qed.

Lemma substring_zero s : String.substring 0 0 s = "".
Proof. by destruct s. Qed.

Lemma casa_hora_corte s :
  PyStr.casa_hora s = true →
  ∃ b, s = String.substring 0 8 s +:+ b.
Proof.
  destruct s as [|a [|b [|c1 [|c [|d [|c2 [|e [|f r]]]]]]]]; try discriminate.
  intros _. exists r. cbn [String.substring]. by rewrite substring_zero.
Qed.

(** The text found is the leftmost part of the shape HH:MM:SS: the
    string is [a ++ t ++ b], the match starts where [t] starts, and no
    match starts inside [a]. *)
Lemma procura_hora_primeira s t :
  PyStr.procura_hora s = Some t →
  ∃ a b, s = a +:+ t +:+ b ∧ PyStr.casa_hora (t +:+ b) = true ∧
         ∀ a1 a2, a = a1 +:+ a2 → a2 ≠ "" → PyStr.casa_hora (a2 +:+ t +:+ b) = false.
Proof.
  induction s as [|x s IH]; cbn [PyStr.procura_hora].
  - discriminate.
  - destruct (PyStr.casa_hora (String x s)) eqn:E.
    + intros [= Ht]. destruct (casa_hora_corte _ E) as [b Hb].
      change (String x (String.substring 0 7 s))
        with (String.substring 0 8 (String x s)) in Ht. rewrite Ht in Hb.
      exists "", b. split_and!; [done | by rewrite <- Hb |].
      intros a1 a2 Ha Hne. destruct a1, a2; try done.
    + intros H. destruct (IH H) as (a & b & Hs & Hc & Hpre).
      exists (String x a), b. split_and!; [by rewrite Hs | done |].
      intros a1 a2 Ha Hne. destruct a1 as [|y a1].
      * change ("" +:+ a2) with a2 in Ha. subst a2.
        change (String x a +:+ t +:+ b) with (String x (a +:+ t +:+ b)).
        by rewrite <- Hs.
      * change (String y a1 +:+ a2) with (String y (a1 +:+ a2)) in Ha.
        injection Ha as _ Ha. by apply (Hpre a1 a2).
Qed.

(** No text is found only when no part of the string has the shape. *)
Lemma procura_hora_nenhuma s :
  PyStr.procura_hora s = None → ∀ a b, s = a +:+ b → PyStr.casa_hora b = false.
Proof.
  induction s as [|x s IH]; cbn [PyStr.procura_hora]; intros H a b Hs.
  - destruct a, b; try done.
  - destruct (PyStr.casa_hora (String x s)) eqn:E; [done |].
    destruct a as [|y a].
    + change ("" +:+ b) with b in Hs. by subst b.
    + change (String y a +:+ b) with (String y (a +:+ b)) in Hs.
      injection Hs as _ Hs. by eapply IH.
Qed.

(** The text branch always leaves a text of the shape HH:MM:SS, the
    sentinel when the cell has no such part. *)
Lemma extrai_hora_forma v :
  ∃ t, extrai_hora v = VTexto t ∧ PyStr.casa_hora t = true ∧ String.length t = 8.
Proof.
  unfold extrai_hora. destruct (PyStr.procura_hora (py_str v)) as [t|] eqn:E.
  - exists t. split; [done |]. by eapply procura_hora_forma.
  - by exists "00:00:00".
Qed.

Lemma filter_rotulo_unico {A} n (df : list (string * A))
    `{!∀ c : string * A, Decision (c.1 = n)} :
  NoDup df.*1 → (length (filter (λ c : string * A, c.1 = n) df) ≤ 1)%nat.
Proof.
  induction df as [|[l s] df IH]; csimpl; [lia |].
  intros [Hl Hnd]%NoDup_cons. rewrite filter_cons. simpl.
  destruct (decide (l = n)) as [->|]; [| by apply IH].
  simpl. assert (filter (λ c : string * A, c.1 = n) df = []) as ->; [| simpl; lia].
  apply elem_of_nil_inv. intros c [Hn Hc]%list_elem_of_filter. apply Hl.
  apply list_elem_of_fmap. exists c. by split.
Qed.

Lemma filter_rotulo_presente {A} n (df : list (string * A))
    `{!∀ c : string * A, Decision (c.1 = n)} :
  n ∈ df.*1 → filter (λ c : string * A, c.1 = n) df ≠ [].
Proof.
  intros (c & Hn & Hc)%list_elem_of_fmap Hf.
  assert (c ∈ filter (λ c' : string * A, c'.1 = n) df) as Hin
    by by apply list_elem_of_filter.
  rewrite Hf in Hin. by apply elem_of_nil in Hin.
Qed.

(** *** Durations of a whole number of seconds *)

Lemma append_nil_r (a : string) : a +:+ "" = a.
Proof.
  induction a as [|x a IH]; [done |].
  change (String x (a +:+ "") = String x a). by rewrite IH.
Qed.

Lemma split_go_sem_espaco cur b :
  PyStr.sem_espaco b = true → cur +:+ b ≠ "" → PyStr.split_go cur b = [cur +:+ b].
Proof.
  revert cur. induction b as [|c b IH]; intros cur Hb Hne.
  - rewrite append_nil_r in *. simpl. by destruct cur.
  - cbn [PyStr.sem_espaco] in Hb. apply andb_true_iff in Hb as [Hc Hb].
    apply negb_true_iff in Hc. cbn [PyStr.split_go]. rewrite Hc.
    rewrite IH; [by rewrite append_assoc | done |]. by destruct cur.
Qed.

(** The last token of a string that ends in a blank followed by a
    non-empty run without blanks is that run. *)
Lemma last_split_go cur a c b :
  PyStr.is_space c = true → PyStr.sem_espaco b = true → b ≠ "" →
  last (PyStr.split_go cur (a +:+ String c b)) = Some b.
Proof.
  intros Hc Hb Hne. revert cur. induction a as [|x a IH]; intros cur.
  - change ("" +:+ String c b) with (String c b). cbn [PyStr.split_go].
    rewrite Hc. rewrite (split_go_sem_espaco "" b Hb); [| by destruct b].
    change ("" +:+ b) with b. by rewrite last_snoc.
  - change (String x a +:+ String c b) with (String x (a +:+ String c b)).
    cbn [PyStr.split_go]. destruct (PyStr.is_space x).
    + by rewrite last_app, IH.
    + apply IH.
Qed.

Lemma digito_nao_e_espaco c : PyStr.is_digit c = true → PyStr.is_space c = false.
Proof.
  unfold PyStr.is_digit, PyStr.is_space. generalize (nat_of_ascii c). intros n.
  rewrite andb_true_iff, !Nat.leb_le. intros [H1 H2].
  apply orb_false_iff. split; apply andb_false_iff.
  - right. apply Nat.leb_gt. lia.
  - right. apply Nat.leb_gt. lia.
Qed.

Lemma pad_dois_digitos n : n < 100 → PyStr.dois_digitos (PyStr.pad 2 n) = true.
Proof.
  intros Hn.
  assert (forallb (fun k => PyStr.dois_digitos (PyStr.pad 2 k)) (seq 0 100) = true) as H
    by (vm_compute; reflexivity).
  rewrite forallb_forall in H. apply H, in_seq. lia.
Qed.

(** Hours, minutes and seconds below one hundred print as HH:MM:SS. *)
Lemma hh_mm_ss_forma h m s :
  h < 100 → m < 100 → s < 100 →
  PyStr.casa_hora (PyStr.hh_mm_ss h m s) = true ∧
  String.length (PyStr.hh_mm_ss h m s) = 8 ∧
  PyStr.sem_espaco (PyStr.hh_mm_ss h m s) = true.
Proof.
  intros Hh Hm Hs. unfold PyStr.hh_mm_ss.
  pose proof (pad_dois_digitos h Hh) as D1.
  pose proof (pad_dois_digitos m Hm) as D2.
  pose proof (pad_dois_digitos s Hs) as D3.
  destruct (PyStr.pad 2 h) as [|a1 [|b1 [|? ?]]]; try discriminate.
  destruct (PyStr.pad 2 m) as [|a2 [|b2 [|? ?]]]; try discriminate.
  destruct (PyStr.pad 2 s) as [|a3 [|b3 [|? ?]]]; try discriminate.
  simpl in D1, D2, D3.
  apply andb_true_iff in D1 as [A1 B1]. apply andb_true_iff in D2 as [A2 B2].
  apply andb_true_iff in D3 as [A3 B3].
  change (String a1 (String b1 "") +:+ ":" +:+ String a2 (String b2 "") +:+ ":"
            +:+ String a3 (String b3 ""))
    with (String a1 (String b1 (String ":" (String a2 (String b2
            (String ":" (String a3 (String b3 ""))))))))%string.
  split_and!.
  - simpl. by rewrite A1, B1, A2, B2, A3, B3.
  - done.
  - simpl. by rewrite !digito_nao_e_espaco.
Qed.

(** A duration of a whole, non-negative number of seconds becomes the
    text HH:MM:SS of its time of day. *)
Lemma lambda_hora_segundos_inteiros ns :
  (0 ≤ ns)%Z → (ns mod 1000000000 = 0)%Z →
  let r := (ns mod 86400000000000)%Z in
  let t := PyStr.hh_mm_ss (Z.to_nat (r / 3600000000000))
             (Z.to_nat (r / 60000000000 mod 60)) (Z.to_nat (r / 1000000000 mod 60)) in
  lambda_hora (Some ns) = Ok (VTexto t) ∧
  PyStr.casa_hora t = true ∧ String.length t = 8.
Proof.
  intros Hpos Hmod r t.
  assert (0 ≤ r < 86400000000000)%Z as Hr by (apply Z.mod_pos_bound; lia).
  destruct (hh_mm_ss_forma (Z.to_nat (r / 3600000000000))
              (Z.to_nat (r / 60000000000 mod 60)) (Z.to_nat (r / 1000000000 mod 60)))
    as (F1 & F2 & F3).
  { clear -Hr. Z.to_euclidean_division_equations. lia. }
  { clear. Z.to_euclidean_division_equations. lia. }
  { clear. Z.to_euclidean_division_equations. lia. }
  fold t in F1, F2, F3. split; [| done].
  unfold lambda_hora, str_timedelta. fold r.
  assert ((ns / 86400000000000 <? 0)%Z = false) as ->.
  { apply Z.ltb_ge. clear -Hpos. Z.to_euclidean_division_equations. lia. }
  assert (r mod 1000000000 = 0)%Z as Hr9.
  { subst r. clear -Hmod. Z.to_euclidean_division_equations. lia. }
  assert (Z.to_nat (r / 1000000 mod 1000) = 0) as ->.
  { clear -Hr9. Z.to_euclidean_division_equations. lia. }
  assert (Z.to_nat (r / 1000 mod 1000) = 0) as ->.
  { clear -Hr9. Z.to_euclidean_division_equations. lia. }
  assert (Z.to_nat (r mod 1000) = 0) as ->.
  { clear -Hr9. Z.to_euclidean_division_equations. lia. }
  cbn [Nat.eqb andb]. fold t. rewrite append_nil_r.
  change (PyStr.decZ (ns / 86400000000000) +:+ " days" +:+ " " +:+ t)
    with (PyStr.decZ (ns / 86400000000000) +:+ " days" +:+ String " " t).
  rewrite <- append_assoc. unfold PyStr.split.
  rewrite last_split_go; [done | done | done |]. by destruct t.
Qed.

(** With column labels that do not repeat, the [HoraVenda] block never
    raises, whatever the cells hold. *)
Lemma normaliza_total df :
  NoDup (pd_columns df) → ∃ df', normaliza_hora_venda df = Ok df'.
Proof.
  intros Hnd. unfold normaliza_hora_venda.
  destruct (contem "HoraVenda" (pd_columns df)) eqn:Ec; [| by eexists].
  apply contem_spec in Ec.
  unfold pd_getitem.
  pose proof (filter_rotulo_unico "HoraVenda" df Hnd) as Hle.
  pose proof (filter_rotulo_presente "HoraVenda" df Ec) as Hne.
  match goal with
  | |- context [match ?f with [] => _ | _ => _ end] =>
      match type of Hne with ?g ≠ [] => change g with f in Hne, Hle end
  end.
  destruct (filter _ df) as [|[l s] [|? ?]]; [by destruct Hne | | simpl in Hle; lia].
  destruct s as [xs|xs|xs]; try by eexists.
  destruct (apply_lambda_hora_total xs) as [ys ->]. by eexists.
Qed.

(** C8 (what the code does). On a duration column the block keeps the
    last blank-separated part of the text of each duration: HH:MM:SS for
    a whole number of seconds, but with the fraction appended when there
    is one and with a sign in front when the duration is negative; the
    missing value becomes the sentinel. *)
Theorem C8_duration_text_is_not_fixed_width :
  normaliza_hora_venda
    [("HoraVenda",
      STimedelta64 [Some 52200000000000; Some 1500000000; Some (-1000000000); None]%Z)]
  = Ok [("HoraVenda",
         SObject [VTexto "14:30:00"; VTexto "00:00:01.500000"; VTexto "+23:59:59";
                  VTexto "00:00:00"])].
Proof. vm_compute. reflexivity. Qed.

(** A result with two columns labelled [HoraVenda] makes the block raise. *)
Example hora_venda_repetida :
  normaliza_hora_venda
    [("HoraVenda", SObject [VTexto "10:00:00"]); ("HoraVenda", SObject [VTexto "11:00:00"])]
  = Erro (Exc AttributeError "'DataFrame' object has no attribute 'dtype'").
Proof. reflexivity. Qed.

Example hora_venda_texto :
  normaliza_hora_venda clientes_exemplo
  = Ok [("Codigo", SInt64 [1; 2]%Z);
        ("HoraVenda", SObject [VTexto "09:05:00"; VTexto "00:00:00"])].
Proof. vm_compute. reflexivity. Qed.

(** ** Frames *)

Lemma pl_col_cons n (c : string * list valor) df :
  pl_col n (c :: df) = if decide (c.1 = n) then Ok c.2 else pl_col n df.
Proof.
  unfold pl_col. simpl. destruct (decide (c.1 = n)); [done |].
  by destruct (list_find _ df) as [[i x]|].
Qed.

Lemma pl_col_presente n df : n ∈ schema df → ∃ col, pl_col n df = Ok col.
Proof.
  induction df as [|c df IH]; csimpl; [by intros ?%elem_of_nil |].
  rewrite pl_col_cons. intros [?|?]%elem_of_cons.
  - rewrite decide_True; [by eexists | done].
  - destruct (decide (c.1 = n)); [by eexists | by apply IH].
Qed.

Lemma pl_col_schema n df col : pl_col n df = Ok col → n ∈ schema df.
Proof.
  induction df as [|c df IH]; [done |]. rewrite pl_col_cons. csimpl.
  destruct (decide (c.1 = n)) as [<-|]; [intros _; apply list_elem_of_here |].
  intros H. apply list_elem_of_further. by apply IH.
Qed.

Lemma celula_pl_col df c i :
  celula df c i = match pl_col c df with
                  | Ok col => default VNulo (col !! i)
                  | Erro _ => VNulo
                  end.
Proof. unfold celula, pl_col. by destruct (list_find _ df) as [[j x]|]. Qed.

Lemma schema_with_column n vs df :
  schema (with_column n vs df) =
  if contem n (schema df) then schema df else schema df ++ [n].
Proof.
  unfold with_column, schema. destruct (contem n df.*1).
  - rewrite <- list_fmap_compose. apply list_fmap_ext. intros i c _.
    simpl. by destruct (decide (c.1 = n)).
  - by rewrite fmap_app.
Qed.

Lemma schema_with_column_mono n vs df x :
  x ∈ schema df → x ∈ schema (with_column n vs df).
Proof.
  rewrite schema_with_column. destruct (contem n (schema df)); [done |].
  intros ?. apply elem_of_app. by left.
Qed.

Lemma schema_with_column_novo n vs df : n ∈ schema (with_column n vs df).
Proof.
  rewrite schema_with_column. destruct (contem n (schema df)) eqn:E.
  - by apply contem_spec.
  - apply elem_of_app. right. apply list_elem_of_here.
Qed.

(** The column just set is the one read back. *)
Lemma pl_col_with_column n vs df : pl_col n (with_column n vs df) = Ok vs.
Proof.
  unfold with_column. destruct (contem n (schema df)) eqn:E.
  - apply contem_spec in E. induction df as [|c df IH]; [by apply elem_of_nil in E |].
    csimpl. rewrite pl_col_cons. destruct (decide (c.1 = n)) as [Hc|Hc]; simpl.
    + by rewrite decide_True.
    + rewrite decide_False; [| done]. apply IH. csimpl in E.
      apply elem_of_cons in E as [?|?]; [congruence | done].
  - apply contem_false in E. induction df as [|c df IH]; csimpl.
    + rewrite pl_col_cons. by rewrite decide_True.
    + rewrite pl_col_cons. csimpl in E. apply not_elem_of_cons in E as [? ?].
      rewrite decide_False; [by apply IH | congruence].
Qed.

(** The other columns read as before. *)
Lemma pl_col_with_column_ne m n vs df :
  m ≠ n → pl_col m (with_column n vs df) = pl_col m df.
Proof.
  intros Hne. unfold with_column. destruct (contem n (schema df)).
  - induction df as [|c df IH]; [done |]. csimpl. rewrite !pl_col_cons.
    destruct (decide (c.1 = n)) as [Hc|Hc]; simpl.
    + rewrite !decide_False; [done | congruence | congruence].
    + by rewrite IH.
  - induction df as [|c df IH]; csimpl.
    + rewrite pl_col_cons. simpl. by rewrite decide_False.
    + rewrite !pl_col_cons. by rewrite IH.
Qed.




(** ** The materializer *)

Section Provas.

Variable amb : Ambiente.

Lemma makedirs_vazio w : makedirs "" w = (Erro (Exc FileNotFoundError ""), w).
Proof. done. Qed.

Lemma makedirs_ok p w :
  p ≠ "" →
  ∃ w', makedirs p w = (Ok tt, w') ∧ hist w' = hist w ∧ guid w' = guid w ∧
        is_Some (fs w' !! p) ∧
        (∀ q, default [] (fs w' !! q) = default [] (fs w !! q)) ∧
        (is_Some (fs w !! p) → w' = w).
Proof.
  intros Hp. unfold makedirs.
  destruct (String.eqb_spec p "") as [|_]; [done |].
  destruct (fs w !! p) as [arqs|] eqn:E.
  - exists w. split_and!; by rewrite ?E.
  - eexists. split_and!; [done | done | done | | |]; simpl.
    + by rewrite lookup_insert_eq.
    + intros q. destruct (decide (p = q)) as [<-|Hne].
      * by rewrite lookup_insert_eq, E.
      * by rewrite lookup_insert_ne.
    + by intros [? ?].
Qed.

(** [makedirs] leaves the trace and the writer's counter alone. *)
Lemma makedirs_hist p w : hist (makedirs p w).2 = hist w ∧ guid (makedirs p w).2 = guid w.
Proof.
  unfold makedirs. destruct (String.eqb p ""); [done |].
  by destruct (fs w !! p).
Qed.

(** The body of [processar_dados], step by step: the directory, the
    table, the validation, the write and the listing. *)
Lemma corpo_eq df nome pasta w :
  processar_dados_corpo amb df nome pasta w =
  match makedirs pasta w with
  | (Erro e, w1) => (Erro e, w1)
  | (Ok _, w1) =>
      match tabela_final amb df nome (relogio amb (hist w1)) with
      | Erro e => (Erro e, w1)
      | Ok tabela =>
          let raiz := PyStr.path_join pasta nome in
          if contem "idEmpresa" (schema tabela) then
            (write_to_dataset amb tabela raiz
               (partition_cols (escolhe_coluna_data nome (pd_columns df))) ;;;
             nomes <- listdir raiz ;;
             ret (raiz, list_to_set (PyStr.path_join raiz <$> nomes))) w1
          else (Erro (Exc ValueError msg_id_empresa), w1)
      end
  end.
Proof.
  unfold processar_dados_corpo, tabela_final, bind at 1.
  destruct (makedirs pasta w) as [[[]|e] w1]; [| done].
  unfold bind at 1, eleva at 1.
  destruct (normaliza_hora_venda df) as [d1|e]; [| done].
  unfold bind at 1, eleva at 1.
  destruct (from_pandas d1) as [d2|e]; [| done].
  unfold bind at 1. unfold bind at 1.
  destruct (escolhe_coluna_data nome (pd_columns df)) as [c|] eqn:Ec.
  - destruct (verdadeiro (Some c)).
    + unfold eleva at 1. destruct (deriva_ano_mes amb c _) as [d4|e]; [| done].
      unfold bind at 1, eleva at 1.
      destruct (ajustar_tipos_dados amb d4 nome) as [d5|e]; [| done].
      by destruct (contem "idEmpresa" (schema d5)).
    + unfold ret at 1. unfold bind at 1, eleva at 1.
      destruct (ajustar_tipos_dados amb _ nome) as [d5|e]; [| done].
      by destruct (contem "idEmpresa" (schema d5)).
  - unfold ret at 1. unfold bind at 1, eleva at 1.
    destruct (ajustar_tipos_dados amb _ nome) as [d5|e]; [| done].
    by destruct (contem "idEmpresa" (schema d5)).
Qed.

(** Writing and listing, when every partition column is in the table. *)
Lemma escreve_e_lista tabela raiz pcols w :
  Forall (fun c => c ∈ schema tabela) pcols →
  let novos := novos_arquivos amb tabela pcols (guid w) in
  let arqs := default [] (fs w !! raiz) ++ novos in
  let fs' := match novos with [] => fs w | _ => <[raiz := arqs]> (fs w) end in
  (write_to_dataset amb tabela raiz pcols ;;;
   nomes <- listdir raiz ;;
   ret (raiz, list_to_set (C := gset string) (PyStr.path_join raiz <$> nomes))) w
  = (match fs' !! raiz with
     | Some _ => Ok (raiz, list_to_set (PyStr.path_join raiz <$> (topo <$> arqs)))
     | None => Erro (Exc FileNotFoundError raiz)
     end,
     MkMundo fs' (hist w) (S (guid w))) ∧
  (is_Some (fs' !! raiz) → fs' !! raiz = Some arqs).
Proof.
  intros Hc novos arqs fs'. unfold bind at 1, write_to_dataset.
  destruct (list_find _ pcols) as [[i c]|] eqn:E.
  { apply list_find_Some in E as (Hi & Hn & _).
    rewrite Forall_forall in Hc. destruct Hn. apply Hc.
    by eapply list_elem_of_lookup_2. }
  fold (novos_arquivos amb tabela pcols (guid w)). fold novos. fold arqs. fold fs'.
  unfold bind, listdir, ret. simpl.
  assert (is_Some (fs' !! raiz) → fs' !! raiz = Some arqs) as Hs.
  { unfold fs', arqs. destruct novos as [|a novos'].
    - intros [x Hx]. rewrite Hx. simpl. by rewrite app_nil_r.
    - intros _. by rewrite lookup_insert_eq. }
  split; [| exact Hs].
  destruct (fs' !! raiz) as [x|] eqn:Ex; [| done].
  assert (Some x = Some arqs) as [= ->]; [by apply Hs |]. done.
Qed.

(** A partition column missing from the table makes the writer raise,
    before anything is written. *)
Lemma escreve_falha tabela raiz pcols w :
  ¬ Forall (fun c => c ∈ schema tabela) pcols →
  ∃ e, write_to_dataset amb tabela raiz pcols w = (Erro e, w).
Proof.
  intros Hc. unfold write_to_dataset.
  destruct (list_find _ pcols) as [[i c]|] eqn:E; [by eexists |].
  destruct Hc. apply list_find_None in E.
  eapply Forall_impl; [exact E |]. intros x Hx. simpl in Hx.
  by destruct (decide (x ∈ schema tabela)).
Qed.

(** The body never touches the trace of events. *)
Lemma corpo_hist df nome pasta w :
  hist (processar_dados_corpo amb df nome pasta w).2 = hist w.
Proof.
  rewrite corpo_eq. pose proof (makedirs_hist pasta w) as [Hh _].
  destruct (makedirs pasta w) as [[[]|e] w1]; simpl in *; [| done].
  destruct (tabela_final _ _ _ _) as [tabela|e]; [| done]. simpl.
  destruct (contem "idEmpresa" (schema tabela)); [| done].
  unfold bind at 1, write_to_dataset.
  destruct (list_find _ _) as [[i c]|]; [done |].
  unfold bind, listdir, ret. simpl. by destruct (_ !! _).
Qed.

(** [processar_dados] always returns, and returns the sentinel whenever
    its body raised. *)
Lemma processar_dados_eq df nome pasta w :
  processar_dados amb df nome pasta w =
  match processar_dados_corpo amb df nome pasta w with
  | (Ok r, w') => (Ok r, w')
  | (Erro _, w') => (Ok sentinela, w')
  end.
Proof.
  unfold processar_dados, tenta.
  by destruct (processar_dados_corpo amb df nome pasta w) as [[r|e] w'].
Qed.

Lemma processar_dados_hist df nome pasta w :
  hist (processar_dados amb df nome pasta w).2 = hist w.
Proof.
  rewrite processar_dados_eq. pose proof (corpo_hist df nome pasta w) as H.
  by destruct (processar_dados_corpo amb df nome pasta w) as [[r|e] w'].
Qed.

(** *** The height of the table that is written *)

Lemma apply_length {A B} (f : A → resultado B) xs ys :
  apply f xs = Ok ys → length ys = length xs.
Proof.
  revert ys. induction xs as [|x xs IH]; intros ys; simpl.
  - by intros [= <-].
  - destruct (f x); [| done]. destruct (apply f xs); [| done].
    intros [= <-]. simpl. f_equal. by apply IH.
Qed.

Lemma pd_getitem_uma nome (df : PdFrame) s c :
  pd_getitem nome df = UmaSerie s → c ∈ df → c.1 = nome → c.2 = s.
Proof.
  unfold pd_getitem. intros H Hc Hn.
  assert (c ∈ filter (λ c : string * Serie, c.1 = nome) df) as Hf
    by by apply list_elem_of_filter.
  destruct (filter _ df) as [|[l s'] [|? ?]]; try done.
  injection H as <-. by apply list_elem_of_singleton in Hf as ->.
Qed.

Lemma pd_columns_setitem nome s df : pd_columns (pd_setitem nome s df) = pd_columns df.
Proof.
  unfold pd_columns, pd_setitem. rewrite <- list_fmap_compose.
  apply list_fmap_ext. intros i c _. simpl. by destruct (decide (c.1 = nome)).
Qed.






Lemma aumenta_schema agora df x :
  x ∈ schema df → x ∈ schema (aumenta amb agora df).
Proof.
  intros H. unfold aumenta, with_columns. simpl.
  by do 3 apply schema_with_column_mono.
Qed.

Lemma aumenta_id_empresa agora df : "idEmpresa" ∈ schema (aumenta amb agora df).
Proof.
  unfold aumenta, with_columns. simpl.
  apply schema_with_column_mono, schema_with_column_novo.
Qed.

(** The derivation of [Ano] and [Mes], column by column. *)
Lemma deriva_eq c df col :
  pl_col c df = Ok col →
  deriva_ano_mes amb c df =
  Ok (with_column "Mes" (str_slice 5 2 <$> (cast_utf8 amb <$> col))
       (with_column "Ano" (str_slice 0 4 <$> (cast_utf8 amb <$> col))
          (with_column c (cast_utf8 amb <$> col) df))).
Proof.
  intros H. unfold deriva_ano_mes. rewrite H. unfold with_columns. simpl.
  by rewrite pl_col_with_column.
Qed.



(** *** What a successful materialization has done *)

Lemma corpo_ok_inv df nome pasta w r w' :
  processar_dados_corpo amb df nome pasta w = (Ok r, w') →
  ∃ tabela,
    let raiz := PyStr.path_join pasta nome in
    let pcols := partition_cols (escolhe_coluna_data nome (pd_columns df)) in
    let arqs := default [] (fs w !! raiz) ++ novos_arquivos amb tabela pcols (guid w) in
    pasta ≠ "" ∧
    tabela_final amb df nome (relogio amb (hist w)) = Ok tabela ∧
    "idEmpresa" ∈ schema tabela ∧
    Forall (fun c => c ∈ schema tabela) pcols ∧
    r = (raiz, list_to_set (PyStr.path_join raiz <$> (topo <$> arqs))) ∧
    fs w' !! raiz = Some arqs ∧ hist w' = hist w.
Proof.
  rewrite corpo_eq. destruct (decide (pasta = "")) as [->|Hp].
  { by rewrite makedirs_vazio. }
  destruct (makedirs_ok pasta w Hp) as (w1 & -> & Hh & Hg & _ & Hfs & _).
  rewrite Hh. destruct (tabela_final _ _ _ _) as [tabela|e] eqn:Et; [| done].
  simpl. destruct (contem "idEmpresa" (schema tabela)) eqn:Ec; [| done].
  apply contem_spec in Ec.
  set (pcols := partition_cols _).
  destruct (decide (Forall (fun c => c ∈ schema tabela) pcols)) as [Hf|Hf].
  - destruct (escreve_e_lista tabela (PyStr.path_join pasta nome) pcols w1 Hf)
      as [-> Hs].
    cbv zeta in Hs. rewrite Hfs, Hg in *.
    destruct (_ !! PyStr.path_join pasta nome) as [x|] eqn:Ex; [| done].
    intros [= <- <-]. exists tabela. simpl. split_and!; try done.
    rewrite Ex. by apply Hs.
  - destruct (escreve_falha tabela (PyStr.path_join pasta nome) pcols w1 Hf) as [e He].
    unfold bind at 1. by rewrite He.
Qed.

Lemma total_novos_arquivos tabela pcols g :
  total_linhas (novos_arquivos amb tabela pcols g) = altura tabela.
Proof.
  unfold total_linhas, novos_arquivos.
  rewrite <- (agrupa_total (dir_da_linha amb tabela pcols) (altura tabela)) at 2.
  generalize (agrupa (dir_da_linha amb tabela pcols) (altura tabela)).
  intros gs. induction gs as [|gr gs IH]; csimpl; [done |].
  by rewrite length_fmap, IH.
Qed.



(** C9. Shallow listing. After a successful materialization the set
    returned is the set of the paths of the entries found directly in
    the dataset root, each one the root joined with a single name. When
    the root held nothing before, these are exactly the directories of
    the first partition column, [idEmpresa=...], one for each value of
    that column in the table: the [Ano=...] and [Mes=...] directories
    below them are not in the set. *)
Theorem C9_shallow_listing df_pandas nome pasta_temp w raiz particoes w' :
  processar_dados_corpo amb df_pandas nome pasta_temp w = (Ok (raiz, particoes), w') →
  raiz = PyStr.path_join pasta_temp nome ∧
  ∃ tabela arqs,
    tabela_final amb df_pandas nome (relogio amb (hist w)) = Ok tabela ∧
    fs w' !! raiz = Some arqs ∧
    (∀ x, x ∈ particoes ↔ ∃ a, a ∈ arqs ∧ x = PyStr.path_join raiz (topo a)) ∧
    (default [] (fs w !! raiz) = [] →
     ∀ x, x ∈ particoes ↔
          ∃ i, i < altura tabela ∧
               x = PyStr.path_join raiz
                     (segmento amb "idEmpresa" (celula tabela "idEmpresa" i))).
Proof.
  intros H.
  apply corpo_ok_inv in H as (tabela & Hp & Ht & Hid & Hf & [= -> ->] & Hfs & Hh).
  split; [done |]. simpl in *.
  set (raiz := PyStr.path_join pasta_temp nome) in *.
  set (pcols := partition_cols _) in *.
  eexists tabela, _. split_and!; [done | exact Hfs | |].
  - intros x. rewrite elem_of_list_to_set, list_elem_of_fmap. split.
    + intros (n & -> & Hn). apply list_elem_of_fmap in Hn as (a & -> & Ha).
      by exists a.
    + intros (a & Ha & ->). exists (topo a). split; [done |].
      apply list_elem_of_fmap. by exists a.
  - intros Hfresh x. rewrite Hfresh. simpl.
    rewrite elem_of_list_to_set, list_elem_of_fmap. split.
    + intros (n & -> & Hn). apply list_elem_of_fmap in Hn as (a & -> & Ha).
      unfold novos_arquivos in Ha.
      apply list_elem_of_fmap in Ha as ([d idx] & -> & Hg).
      apply agrupa_dir in Hg as (j & Hj & _ & ->). exists j. split; [done |].
      reflexivity.
    + intros (i & Hi & ->).
      destruct (agrupa_cobre (dir_da_linha amb tabela pcols) (altura tabela) i Hi)
        as (idx & Hg & _).
      eexists. split; [reflexivity |]. apply list_elem_of_fmap.
      eexists (MkArquivo _ _ _). split; [| apply list_elem_of_fmap; by eexists].
      reflexivity.
Qed.

(** *** Partition keys *)

(** C7. Partition-key derivation. The dataset named [Vendas] takes the
    column [DataVenda] and the dataset named [Compras] the column
    [DataEmissaoNF], when the raw result has it, and no other dataset
    has a date column; the partition columns are [idEmpresa] alone
    without a date column and [idEmpresa], [Ano], [Mes] with one; and
    the derivation always succeeds on a table that has the date column,
    leaving in [Ano] the 4 characters from offset 0 and in [Mes] the 2
    characters from offset 5 of the text of each date cell (null where
    the cell has no text). *)
Theorem C7_partition_key_derivation nome colunas :
  escolhe_coluna_data nome colunas =
    (if decide (nome = "Vendas" ∧ "DataVenda" ∈ colunas) then Some "DataVenda"
     else if decide (nome = "Compras" ∧ "DataEmissaoNF" ∈ colunas)
          then Some "DataEmissaoNF"
          else None) ∧
  partition_cols (escolhe_coluna_data nome colunas) =
    match escolhe_coluna_data nome colunas with
    | Some _ => ["idEmpresa"; "Ano"; "Mes"]
    | None => ["idEmpresa"]
    end ∧
  ∀ c df col,
    escolhe_coluna_data nome colunas = Some c →
    pl_col c df = Ok col →
    ∃ df', deriva_ano_mes amb c df = Ok df' ∧
           pl_col "Ano" df' =
             Ok ((fun v => match texto_utf8 amb v with
                           | Some s => VTexto (String.substring 0 4 s)
                           | None => VNulo
                           end) <$> col) ∧
           pl_col "Mes" df' =
             Ok ((fun v => match texto_utf8 amb v with
                           | Some s => VTexto (String.substring 5 2 s)
                           | None => VNulo
                           end) <$> col).
Proof.
  assert (escolhe_coluna_data nome colunas =
    (if decide (nome = "Vendas" ∧ "DataVenda" ∈ colunas) then Some "DataVenda"
     else if decide (nome = "Compras" ∧ "DataEmissaoNF" ∈ colunas)
          then Some "DataEmissaoNF"
          else None)) as Hesc.
  { unfold escolhe_coluna_data, contem.
    destruct (String.eqb_spec nome "Vendas");
      destruct (bool_decide_reflect ("DataVenda" ∈ colunas));
      destruct (String.eqb_spec nome "Compras");
      destruct (bool_decide_reflect ("DataEmissaoNF" ∈ colunas));
      simpl; repeat case_decide; try done; exfalso; intuition congruence. }
  split; [exact Hesc |]. split.
  - rewrite Hesc. by repeat case_decide.
  - intros c df col Hc Hcol. rewrite (deriva_eq _ _ _ Hcol). eexists.
    split; [reflexivity |].
    assert (c ≠ "Ano" ∧ c ≠ "Mes") as [Hano Hmes].
    { rewrite Hesc in Hc. by repeat case_decide; simplify_eq. }
    split.
    + rewrite pl_col_with_column_ne; [| done]. rewrite pl_col_with_column.
      f_equal. rewrite <- list_fmap_compose. apply list_fmap_ext.
      intros i v _. unfold cast_utf8. simpl. by destruct (texto_utf8 amb v).
    + rewrite pl_col_with_column.
      f_equal. rewrite <- list_fmap_compose. apply list_fmap_ext.
      intros i v _. unfold cast_utf8. simpl. by destruct (texto_utf8 amb v).
Qed.

(** ** The query runner *)

Lemma com_eventos_nil w : com_eventos w [] = w.
Proof. destruct w. unfold com_eventos. simpl. by rewrite app_nil_r. Qed.

Lemma com_eventos_app w a b : com_eventos (com_eventos w a) b = com_eventos w (a ++ b).
Proof. unfold com_eventos. simpl. by rewrite (assoc (++)). Qed.

(** No error that [read_sql] raises has the class of the driver. *)
Lemma classe_embrulha e : classe_de (embrulha e) ≠ OperationalError.
Proof. unfold embrulha. by destruct (classe_de e) eqn:E; simpl; rewrite ?E. Qed.

(** One turn of the retry loop: the error of a read, wrapped as it is,
    falls to [except Exception]; the branch that sleeps is not entered. *)
Lemma tentativas_eq t rest c nome q pasta w :
  tentativas amb (t :: rest) c nome q pasta w =
  match banco amb (hist w) c q with
  | Ok df =>
      if pd_empty df then (Ok sentinela, com_eventos w [ELeitura c q])
      else processar_dados amb df nome pasta (com_eventos w [ELeitura c q])
  | Erro e => (Ok sentinela, com_eventos w [ELeitura c q])
  end.
Proof.
  simpl. unfold tenta, bind at 1, read_sql.
  destruct (banco amb (hist w) c q) as [df|e].
  - fold (com_eventos w [ELeitura c q]). destruct (pd_empty df); [done |].
    rewrite processar_dados_eq.
    by destruct (processar_dados_corpo _ _ _ _ _) as [[r|e] w'].
  - fold (com_eventos w [ELeitura c q]).
    pose proof (classe_embrulha e) as Hc.
    by destruct (classe_de (embrulha e)).
Qed.

(** The retry loop never raises. *)
Lemma tentativas_ok rest c nome q pasta w :
  ∃ r w', tentativas amb rest c nome q pasta w = (Ok r, w').
Proof.
  revert w. induction rest as [|t rest IH]; intros w; [by eexists _, _ |].
  rewrite tentativas_eq. destruct (banco amb (hist w) c q) as [df|e].
  - destruct (pd_empty df); [by eexists _, _ |]. rewrite processar_dados_eq.
    destruct (processar_dados_corpo _ _ _ _ _) as [[r|e] w']; by eexists _, _.
  - by eexists _, _.
Qed.

Lemma processa_consulta_eq c pasta consulta w :
  ∃ r w',
    executar_consulta amb c (nome_da_consulta consulta) (consulta !! "query") pasta w
      = (Ok r, w') ∧
    processa_consulta amb c pasta consulta w
      = (Ok (nome_da_consulta consulta, Some r.1, r.2), w').
Proof.
  destruct (tentativas_ok (seq 0 retries) c (nome_da_consulta consulta)
              (consulta !! "query") pasta w) as (r & w' & H).
  exists r, w'. split; [exact H |].
  unfold processa_consulta, tenta, bind, executar_consulta.
  fold (nome_da_consulta consulta). by rewrite H.
Qed.

Lemma junta_sentinela acc n : junta acc (n, Some "", ∅) = acc.
Proof. done. Qed.

(** A query whose runner returns the sentinel leaves the dictionaries
    as they are, and the loop goes on to the next query. *)
Lemma laco_passo_sentinela c pasta consulta resto acc w w' :
  executar_consulta amb c (nome_da_consulta consulta) (consulta !! "query") pasta w
    = (Ok ("", ∅), w') →
  processa_consulta amb c pasta consulta w
    = (Ok (nome_da_consulta consulta, Some "", ∅), w') ∧
  laco_sequencial amb c pasta (consulta :: resto) acc w
    = laco_sequencial amb c pasta resto acc w' ∧
  executa_tarefas amb c pasta (consulta :: resto) w
    = (Ok (nome_da_consulta consulta, Some "", ∅)
         :: (executa_tarefas amb c pasta resto w').1,
       (executa_tarefas amb c pasta resto w').2) ∧
  ∀ futuros, funde (Ok (nome_da_consulta consulta, Some "", ∅) :: futuros) acc
             = funde futuros acc.
Proof.
  intros H. destruct (processa_consulta_eq c pasta consulta w) as (r & w1 & H1 & H2).
  rewrite H in H1. injection H1 as <- <-. simpl in H2.
  split_and!; [done | | | done].
  - simpl. by rewrite H2.
  - simpl. rewrite H2. by destruct (executa_tarefas amb c pasta resto w').
Qed.

(** The runner reads once, whatever the session answers. *)
Lemma executar_consulta_traco c nome q pasta_temp w :
  ∃ r w',
    executar_consulta amb c nome q pasta_temp w = (Ok r, w') ∧
    hist w' = hist w ++ [ELeitura c q] ∧
    (∀ e, banco amb (hist w) c q = Erro e → r = ("", ∅) ∧ fs w' = fs w).
Proof.
  unfold executar_consulta. simpl seq. rewrite tentativas_eq.
  destruct (banco amb (hist w) c q) as [df|e].
  - destruct (pd_empty df); [by eexists _, _ |].
    pose proof (processar_dados_hist df nome pasta_temp (com_eventos w [ELeitura c q]))
      as Hh.
    destruct (processar_dados amb df nome pasta_temp _) as [[r|e] w'] eqn:E.
    + by eexists _, _.
    + rewrite processar_dados_eq in E.
      by destruct (processar_dados_corpo _ _ _ _ _) as [[r|e'] w''].
  - eexists _, _. split_and!; [done | done |]. by intros e' [= <-].
Qed.

(** C2. Connection errors are not retried. With a session whose driver
    raises [OperationalError] on every execution, the query runner makes
    one attempt and no more: it reads once, does not sleep, touches no
    file and returns the sentinel. The handler of line 150 names the
    class of psycopg2, and the error of a read through the SQLAlchemy
    connection is not of that class; it falls to the handler of line
    153, which gives up at once. *)
Theorem C2_connection_errors_are_not_retried c nome q pasta_temp w :
  (∀ h, ∃ e, banco amb h c q = Erro e ∧ classe_de e = OperationalError) →
  ∃ w',
    executar_consulta amb c nome q pasta_temp w = (Ok ("", ∅), w') ∧
    hist w' = hist w ++ [ELeitura c q] ∧
    fs w' = fs w.
Proof.
  intros Hb. destruct (Hb (hist w)) as (e & He & _).
  destruct (executar_consulta_traco c nome q pasta_temp w) as (r & w' & H1 & H2 & H3).
  destruct (H3 e He) as [-> Hfs]. by exists w'.
Qed.

(** C5. Failures that are not of the connection. Whatever attempt it is
    that meets an error of a class other than [OperationalError], or a
    result whose materialization raises, that attempt is the last:
    the runner returns the sentinel with one read and no sleep added to
    the trace, and (for the error of the database) no change to the
    files. Only this query ends: the loop of the run keeps its
    dictionaries and goes on with the queries that remain, in
    sequential and in parallel mode. *)
Theorem C5_no_retry_on_other_errors t rest c nome q pasta_temp w :
  (∀ e, banco amb (hist w) c q = Erro e → classe_de e ≠ OperationalError →
        tentativas amb (t :: rest) c nome q pasta_temp w
          = (Ok ("", ∅), com_eventos w [ELeitura c q])) ∧
  (∀ df e w2,
      banco amb (hist w) c q = Ok df → pd_empty df = false →
      processar_dados_corpo amb df nome pasta_temp (com_eventos w [ELeitura c q])
        = (Erro e, w2) →
      tentativas amb (t :: rest) c nome q pasta_temp w = (Ok ("", ∅), w2) ∧
      hist w2 = hist w ++ [ELeitura c q]) ∧
  (∀ consulta resto acc w',
      executar_consulta amb c (nome_da_consulta consulta) (consulta !! "query")
                        pasta_temp w = (Ok ("", ∅), w') →
      laco_sequencial amb c pasta_temp (consulta :: resto) acc w
        = laco_sequencial amb c pasta_temp resto acc w' ∧
      funde (executa_tarefas amb c pasta_temp (consulta :: resto) w).1 acc
        = funde (executa_tarefas amb c pasta_temp resto w').1 acc).
Proof.
  split_and!.
  - intros e He Hc. by rewrite tentativas_eq, He.
  - intros df e w2 Hdf Hne Hcorpo. rewrite tentativas_eq, Hdf, Hne.
    rewrite processar_dados_eq, Hcorpo. split; [done |].
    pose proof (corpo_hist df nome pasta_temp (com_eventos w [ELeitura c q])) as Hh.
    by rewrite Hcorpo in Hh.
  - intros consulta resto acc w' H.
    destruct (laco_passo_sentinela c pasta_temp consulta resto acc w w' H)
      as (_ & H1 & H2 & H3).
    split; [done |]. by rewrite H2.
Qed.

(** ** The orchestrator *)

Lemma junta_lookup_ne acc (r : string * option string * gset string) n :
  r.1.1 ≠ n →
  (junta acc r).1 !! n = acc.1 !! n ∧ (junta acc r).2 !! n = acc.2 !! n.
Proof.
  intros Hne. unfold junta. destruct (verdadeiro r.1.2); [| done]. simpl.
  by rewrite !lookup_insert_ne.
Qed.

(** A dataset name whose queries all end in the sentinel gets no entry,
    in either loop. *)
Lemma laco_sem_entrada c pasta n consultas :
  (∀ consulta, consulta ∈ consultas → nome_da_consulta consulta = n →
     ∀ w, ∃ w', executar_consulta amb c n (consulta !! "query") pasta w
                = (Ok ("", ∅), w')) →
  ∀ acc w, acc.1 !! n = None → acc.2 !! n = None →
    (laco_sequencial amb c pasta consultas acc w).1.1 !! n = None ∧
    (laco_sequencial amb c pasta consultas acc w).1.2 !! n = None ∧
    (funde (executa_tarefas amb c pasta consultas w).1 acc).1 !! n = None ∧
    (funde (executa_tarefas amb c pasta consultas w).1 acc).2 !! n = None.
Proof.
  induction consultas as [|consulta resto IH]; intros Hq acc w H1 H2; [done |].
  destruct (processa_consulta_eq c pasta consulta w) as (r & w' & He & Hp).
  assert (∀ x, x ∈ resto → nome_da_consulta x = n →
            ∀ w, ∃ w', executar_consulta amb c n (x !! "query") pasta w
                       = (Ok ("", ∅), w')) as Hq'.
  { intros x Hx. apply Hq. by apply list_elem_of_further. }
  assert ((junta acc (nome_da_consulta consulta, Some r.1, r.2)).1 !! n = None ∧
          (junta acc (nome_da_consulta consulta, Some r.1, r.2)).2 !! n = None)
    as [J1 J2].
  { destruct (decide (nome_da_consulta consulta = n)) as [Hn|Hn].
    - destruct (Hq consulta (list_elem_of_here _ _) Hn w) as (w2 & Hs).
      rewrite Hn in He. rewrite Hs in He. injection He as <- <-. done.
    - destruct (junta_lookup_ne acc (nome_da_consulta consulta, Some r.1, r.2) n Hn)
        as [-> ->]. done. }
  destruct (IH Hq' _ w' J1 J2) as (I1 & I2 & I3 & I4).
  simpl. rewrite Hp.
  destruct (executa_tarefas amb c pasta resto w') as [rs w2] eqn:Et.
  simpl in *. done.
Qed.

(** *** Siblings *)

Lemma laco_cons c pasta consulta resto acc w :
  ∃ r w',
    executar_consulta amb c (nome_da_consulta consulta) (consulta !! "query") pasta w
      = (Ok r, w') ∧
    laco_sequencial amb c pasta (consulta :: resto) acc w
      = laco_sequencial amb c pasta resto
          (junta acc (nome_da_consulta consulta, Some r.1, r.2)) w'.
Proof.
  destruct (processa_consulta_eq c pasta consulta w) as (r & w' & He & Hp).
  exists r, w'. split; [done |]. simpl. by rewrite Hp.
Qed.

(** The sequential loop runs every query: the loop over a list is the
    loop over its first part followed by the loop over the rest. *)
Lemma laco_app c pasta antes depois acc w :
  laco_sequencial amb c pasta (antes ++ depois) acc w =
  laco_sequencial amb c pasta depois
    (laco_sequencial amb c pasta antes acc w).1
    (laco_sequencial amb c pasta antes acc w).2.
Proof.
  revert acc w. induction antes as [|consulta antes IH]; intros acc w; [done |].
  change ((consulta :: antes) ++ depois) with (consulta :: (antes ++ depois)).
  destruct (laco_cons c pasta consulta (antes ++ depois) acc w) as (r & w' & He & ->).
  destruct (laco_cons c pasta consulta antes acc w) as (r' & w'' & He' & ->).
  rewrite He in He'. injection He' as <- <-. apply IH.
Qed.

(** Queries of other names leave the entries of a name as they are. *)
Lemma laco_preserva c pasta n consultas :
  (∀ x, x ∈ consultas → nome_da_consulta x ≠ n) →
  ∀ acc w,
    (laco_sequencial amb c pasta consultas acc w).1.1 !! n = acc.1 !! n ∧
    (laco_sequencial amb c pasta consultas acc w).1.2 !! n = acc.2 !! n.
Proof.
  induction consultas as [|consulta resto IH]; intros Hn acc w; [done |].
  destruct (laco_cons c pasta consulta resto acc w) as (r & w' & _ & ->).
  destruct (IH (fun x Hx => Hn x (list_elem_of_further _ _ _ Hx))
              (junta acc (nome_da_consulta consulta, Some r.1, r.2)) w') as [-> ->].
  apply junta_lookup_ne. simpl. apply Hn, list_elem_of_here.
Qed.

(** A query that materializes keeps its entry in the result of the run,
    whatever happens to the queries of other names before and after it. *)
Lemma laco_irma c pasta antes consulta depois acc w p ps w' :
  (∀ x, x ∈ depois → nome_da_consulta x ≠ nome_da_consulta consulta) →
  executar_consulta amb c (nome_da_consulta consulta) (consulta !! "query") pasta
    (laco_sequencial amb c pasta antes acc w).2 = (Ok (p, ps), w') →
  p ≠ "" →
  let final := (laco_sequencial amb c pasta (antes ++ consulta :: depois) acc w).1 in
  final.1 !! nome_da_consulta consulta = Some p ∧
  final.2 !! nome_da_consulta consulta = Some ps.
Proof.
  intros Hn He Hp final. unfold final. rewrite laco_app.
  destruct (laco_cons c pasta consulta depois
              (laco_sequencial amb c pasta antes acc w).1
              (laco_sequencial amb c pasta antes acc w).2) as (r & w2 & He2 & ->).
  rewrite He in He2. injection He2 as <- <-.
  change (Some (p, ps).1) with (Some p). change ((p, ps).2) with ps.
  destruct (laco_preserva c pasta (nome_da_consulta consulta) depois Hn
              (junta (laco_sequencial amb c pasta antes acc w).1
                 (nome_da_consulta consulta, Some p, ps)) w') as [-> ->].
  unfold junta. simpl. destruct (String.eqb_spec p "") as [|_]; [done |].
  simpl. by rewrite !lookup_insert_eq.
Qed.

Lemma executar_vazio c nome q pasta :
  (∀ h, ∃ df, banco amb h c q = Ok df ∧ pd_empty df = true) →
  ∀ w, executar_consulta amb c nome q pasta w
       = (Ok ("", ∅), com_eventos w [ELeitura c q]).
Proof.
  intros Hb w. unfold executar_consulta. simpl seq. rewrite tentativas_eq.
  by destruct (Hb (hist w)) as (df & -> & ->).
Qed.

(** C6. Empty results. An execution that answers with an empty frame
    ends the runner at once with the sentinel and without an error: one
    read, no sleep, no file or directory written. And when every query
    of a dataset name always gets an empty answer, a run that could
    open its connection returns its result normally, with no entry for
    that name in either dictionary, in sequential and in parallel
    mode. *)
Theorem C6_empty_result :
  (∀ t rest c nome q pasta_temp w df,
      banco amb (hist w) c q = Ok df → pd_empty df = true →
      tentativas amb (t :: rest) c nome q pasta_temp w
        = (Ok ("", ∅), com_eventos w [ELeitura c q])) ∧
  (∀ conexoes_config consultas pasta_temp paralela workers w n,
      pasta_temp ≠ "" →
      motor amb (hist w) = None →
      (∀ x, x ∈ escalonador amb consultas → x ∈ consultas) →
      (∀ consulta, consulta ∈ consultas → nome_da_consulta consulta = n →
         ∀ h c, ∃ df, banco amb h c (consulta !! "query") = Ok df ∧
                      pd_empty df = true) →
      ∃ acc w',
        executar_consultas amb conexoes_config consultas pasta_temp paralela workers w
          = (Ok acc, w') ∧
        acc.1 !! n = None ∧ acc.2 !! n = None).
Proof.
  split.
  - intros t rest c nome q pasta_temp w df Hdf He.
    by rewrite tentativas_eq, Hdf, He.
  - intros cfg consultas pasta_temp paralela workers w n Hp Hm Hesc Hq.
    unfold executar_consultas, bind at 1.
    destruct (makedirs_ok pasta_temp w Hp) as (w1 & -> & Hh & _).
    unfold bind at 1, conectar_ao_banco. rewrite Hh, Hm.
    set (c := length (List.filter e_abertura (hist w))).
    set (w2 := MkMundo _ _ _).
    assert (∀ cs : list (gmap string string), (∀ x, x ∈ cs → x ∈ consultas) →
              ∀ consulta, consulta ∈ cs → nome_da_consulta consulta = n →
                ∀ w, ∃ w', executar_consulta amb c n (consulta !! "query") pasta_temp w
                           = (Ok ("", ∅), w')) as Hv.
    { intros cs Hcs consulta Hin Hn w0. eexists.
      apply executar_vazio. intros h. by apply Hq; [apply Hcs |]. }
    unfold bind at 1. destruct paralela.
    + destruct workers as [|k].
      { unfold bind, fechar_conexao, registra, ret. simpl. by eexists _, _. }
      destruct (laco_sem_entrada c pasta_temp n (escalonador amb consultas)
                  (Hv _ Hesc) (∅, ∅) w2) as (_ & _ & H3 & H4); [done | done |].
      destruct (executa_tarefas amb c pasta_temp (escalonador amb consultas) w2)
        as [futuros w3].
      unfold bind, fechar_conexao, registra, ret. simpl in *. by eexists _, _.
    + destruct (laco_sem_entrada c pasta_temp n consultas
                  (Hv _ (fun x H => H)) (∅, ∅) w2) as (H1 & H2 & _ & _);
        [done | done |].
      destruct (laco_sequencial amb c pasta_temp consultas (∅, ∅) w2) as [acc w3].
      unfold bind, fechar_conexao, registra, ret. simpl in *. by eexists _, _.
Qed.

(** ** Validation of the tenant column *)



(** C10. The materializer never raises. [processar_dados] returns for
    every input; whatever its body raised, the [ValueError] of the
    missing [idEmpresa] column included, it returns the sentinel, in the
    state the body had reached. So the runner returns one and the same
    value for a result that could not be materialized and for an empty
    result. *)
Theorem C10_materializer_never_raises :
  (∀ df nome pasta_temp w,
      ∃ r w', processar_dados amb df nome pasta_temp w = (Ok r, w') ∧
              ∀ e w2, processar_dados_corpo amb df nome pasta_temp w = (Erro e, w2) →
                      r = ("", ∅) ∧ w' = w2) ∧
  (∀ t rest c nome q pasta_temp w df,
      banco amb (hist w) c q = Ok df →
      (pd_empty df = true ∨
       ∃ e w2, processar_dados_corpo amb df nome pasta_temp
                 (com_eventos w [ELeitura c q]) = (Erro e, w2)) →
      (tentativas amb (t :: rest) c nome q pasta_temp w).1 = Ok ("", ∅)).
Proof.
  split.
  - intros df nome pasta_temp w. rewrite processar_dados_eq.
    destruct (processar_dados_corpo amb df nome pasta_temp w) as [[r|e] w'].
    + exists r, w'. split; [done |]. by intros e w2 [=].
    + exists ("", ∅), w'. split; [done |]. by intros e' w2 [= _ <-].
  - intros t rest c nome q pasta_temp w df Hdf H. rewrite tentativas_eq, Hdf.
    destruct (pd_empty df) eqn:E; [done |].
    destruct H as [?|(e & w2 & Hc)]; [done |].
    by rewrite processar_dados_eq, Hc.
Qed.

(** ** Which session the workers use *)

Lemma tentativas_usa_so rest c nome q pasta w :
  ∃ evs, hist (tentativas amb rest c nome q pasta w).2 = hist w ++ evs ∧
         Forall (usa_so c) evs.
Proof.
  revert w. induction rest as [|t rest IH]; intros w.
  - exists []. by rewrite app_nil_r.
  - rewrite tentativas_eq.
    assert (Forall (usa_so c) [ELeitura c q]) as H1.
    { by apply Forall_singleton. }
    destruct (banco amb (hist w) c q) as [df|e].
    + exists [ELeitura c q]. split; [| done].
      destruct (pd_empty df); [done |]. by rewrite processar_dados_hist.
    + by exists [ELeitura c q].
Qed.

Lemma processa_usa_so c pasta consulta w :
  ∃ evs, hist (processa_consulta amb c pasta consulta w).2 = hist w ++ evs ∧
         Forall (usa_so c) evs.
Proof.
  destruct (processa_consulta_eq c pasta consulta w) as (r & w' & He & ->).
  destruct (tentativas_usa_so (seq 0 retries) c (nome_da_consulta consulta)
              (consulta !! "query") pasta w) as (evs & Hh & Hf).
  exists evs. split; [| done]. unfold executar_consulta in He.
  by rewrite He in Hh.
Qed.

Lemma executa_tarefas_usa_so c pasta tarefas w :
  ∃ evs, hist (executa_tarefas amb c pasta tarefas w).2 = hist w ++ evs ∧
         Forall (usa_so c) evs.
Proof.
  revert w. induction tarefas as [|consulta resto IH]; intros w.
  - exists []. by rewrite app_nil_r.
  - destruct (processa_usa_so c pasta consulta w) as (ev1 & H1 & F1).
    simpl. destruct (processa_consulta amb c pasta consulta w) as [r w1].
    destruct (IH w1) as (ev2 & H2 & F2).
    destruct (executa_tarefas amb c pasta resto w1) as [rs w2].
    simpl in *. exists (ev1 ++ ev2).
    split; [by rewrite H2, H1, (assoc (++)) | by apply Forall_app].
Qed.

(** C3 (what the code does). In parallel mode the run opens one
    connection, the one of the orchestrator, and closes it at the end;
    every read that any task makes in between goes through that same
    connection, and no task opens a connection of its own. *)
Theorem C3_parallel_tasks_share_the_session
    conexoes_config consultas pasta_temp workers w acc w' :
  executar_consultas amb conexoes_config consultas pasta_temp true workers w
    = (Ok acc, w') →
  let c0 := length (List.filter e_abertura (hist w)) in
  ∃ evs, hist w' = hist w ++ [EAbre c0] ++ evs ++ [EFecha c0] ∧
         Forall (usa_so c0) evs.
Proof.
  unfold executar_consultas, bind at 1.
  pose proof (makedirs_hist pasta_temp w) as [Hh _].
  destruct (makedirs pasta_temp w) as [[[]|e] w1]; [| done]. simpl in Hh.
  unfold bind at 1, conectar_ao_banco. rewrite Hh.
  destruct (motor amb (hist w)); [done |].
  set (c := length (List.filter e_abertura (hist w))).
  set (w2 := MkMundo _ _ _). unfold bind at 1.
  destruct workers as [|k].
  { unfold bind, fechar_conexao, registra, ret. simpl. intros [= <- <-].
    exists []. simpl. split; [by rewrite <- (assoc (++)) | done]. }
  destruct (executa_tarefas_usa_so c pasta_temp (escalonador amb consultas) w2)
    as (evs & He & Hf).
  destruct (executa_tarefas amb c pasta_temp (escalonador amb consultas) w2)
    as [futuros w3].
  unfold bind, fechar_conexao, registra, ret. simpl in *. intros [= <- <-].
  exists evs. simpl. split; [| done].
  rewrite He. by rewrite <- !(assoc (++)).
Qed.

(** ** Further properties of the query runner *)

Lemma path_join_ne a b : a ≠ "" → PyStr.path_join a b ≠ "".
Proof.
  intros Ha. unfold PyStr.path_join.
  destruct b as [|x b]; simpl.
  - destruct a as [|y a]; [done |]. by destruct (PyStr.endswith_sep (String y a)).
  - destruct (Ascii.eqb x "/"); [done |].
    destruct a as [|y a]; [done |]. by destruct (PyStr.endswith_sep (String y a)).
Qed.





Lemma executar_consulta_forma c nome q pasta_temp w :
  ∃ p ps w',
    executar_consulta amb c nome q pasta_temp w = (Ok (p, ps), w') ∧
    ((p = "" ∧ ps = ∅) ∨
     (p = PyStr.path_join pasta_temp nome ∧ p ≠ "" ∧
      ∀ x, x ∈ ps → ∃ n, x = PyStr.path_join p n)).
Proof.
  unfold executar_consulta. generalize (seq 0 retries). intros rest. revert w.
  induction rest as [|t rest IH]; intros w.
  - exists "", ∅, w. split; [done | by left].
  - rewrite tentativas_eq. destruct (banco amb (hist w) c q) as [df|e].
    + destruct (pd_empty df); [exists "", ∅; eexists; split; [done | by left] |].
      rewrite processar_dados_eq.
      destruct (processar_dados_corpo amb df nome pasta_temp _) as [[r|e] w'] eqn:E.
      * apply corpo_ok_inv in E as (tabela & Hp & _ & _ & _ & -> & _).
        eexists _, _, _. split; [done |]. right.
        split_and!; [done | by apply path_join_ne |].
        intros x Hx. apply elem_of_list_to_set, list_elem_of_fmap in Hx as (n & -> & _).
        by exists n.
      * exists "", ∅. eexists. split; [done | by left].
    + exists "", ∅. eexists. split; [done | by left].
Qed.

(** X7. The runner never raises, whatever the session and the data do,
    and what it returns is either the sentinel or the dataset root
    [join(pasta_temp, nome)], which is not the empty string, together with
    paths each made of that root joined with one name. *)
Theorem X7_runner_result_shape c nome q pasta_temp w :
  ∃ p ps w',
    executar_consulta amb c nome q pasta_temp w = (Ok (p, ps), w') ∧
    ((p = "" ∧ ps = ∅) ∨
     (p = PyStr.path_join pasta_temp nome ∧ p ≠ "" ∧
      ∀ x, x ∈ ps → ∃ n, x = PyStr.path_join p n)).
Proof. apply executar_consulta_forma. Qed.

(** X8. One attempt per call. Whatever the session answers and whatever
    the materialization does, the runner reads once and never sleeps: no
    error that reaches the handlers of lines 150 to 155 has the class
    that line 150 names, so the branch that sleeps and tries again is
    never entered. *)
Theorem X8_runner_reads_once c nome q pasta_temp w :
  ∃ r w',
    executar_consulta amb c nome q pasta_temp w = (Ok r, w') ∧
    hist w' = hist w ++ [ELeitura c q].
Proof.
  destruct (executar_consulta_traco c nome q pasta_temp w) as (r & w' & H1 & H2 & _).
  by exists r, w'.
Qed.



(** ** Further properties of the orchestrator *)

(** The two loops do the same work: merging what the tasks returned,
    taken in the order they ran, gives the dictionaries and the state of
    the sequential loop over the same list. *)
Lemma laco_funde c pasta l acc w :
  funde (executa_tarefas amb c pasta l w).1 acc
    = (laco_sequencial amb c pasta l acc w).1 ∧
  (executa_tarefas amb c pasta l w).2 = (laco_sequencial amb c pasta l acc w).2.
Proof.
  revert acc w. induction l as [|consulta resto IH]; intros acc w; [done |].
  destruct (processa_consulta_eq c pasta consulta w) as (r & w' & _ & Hp).
  simpl. rewrite Hp.
  destruct (IH (junta acc (nome_da_consulta consulta, Some r.1, r.2)) w') as [I1 I2].
  destruct (executa_tarefas amb c pasta resto w') as [rs w2]. simpl in *. done.
Qed.

Lemma laco_usa_so c pasta l acc w :
  ∃ evs, hist (laco_sequencial amb c pasta l acc w).2 = hist w ++ evs ∧
         Forall (usa_so c) evs.
Proof.
  destruct (laco_funde c pasta l acc w) as [_ <-]. apply executa_tarefas_usa_so.
Qed.

(** X1. Failures before the first query. With an empty temp path the
    run raises [FileNotFoundError] before it connects; when the
    connection cannot be opened the run raises the error of the
    connection, having created the temp directory and nothing else: no
    query is read and no connection is closed. *)
Theorem X1_run_fails_before_queries conexoes_config consultas paralela workers w :
  executar_consultas amb conexoes_config consultas "" paralela workers w
    = (Erro (Exc FileNotFoundError ""), w) ∧
  ∀ pasta_temp e,
    pasta_temp ≠ "" → motor amb (hist w) = Some e →
    ∃ w1,
      executar_consultas amb conexoes_config consultas pasta_temp paralela workers w
        = (Erro e, w1) ∧
      hist w1 = hist w ∧ is_Some (fs w1 !! pasta_temp) ∧
      ∀ p, default [] (fs w1 !! p) = default [] (fs w !! p).
Proof.
  split; [done |]. intros pasta_temp e Hp Hm.
  destruct (makedirs_ok pasta_temp w Hp) as (w1 & Hmk & Hh & _ & Hs & Hfs & _).
  exists w1. unfold executar_consultas, bind at 1. rewrite Hmk.
  unfold bind at 1, conectar_ao_banco. by rewrite Hh, Hm.
Qed.

(** X2. The run always returns and always closes. Once the temp
    directory and the connection are there, the run returns its two
    dictionaries, in sequential and in parallel mode and whatever the
    queries do; it has opened one connection, closed that connection as
    its last act, and in between only read through it and slept. *)
Theorem X2_run_returns_and_closes
    conexoes_config consultas pasta_temp paralela workers w :
  pasta_temp ≠ "" → motor amb (hist w) = None →
  let c0 := length (List.filter e_abertura (hist w)) in
  ∃ acc w' evs,
    executar_consultas amb conexoes_config consultas pasta_temp paralela workers w
      = (Ok acc, w') ∧
    hist w' = hist w ++ [EAbre c0] ++ evs ++ [EFecha c0] ∧
    Forall (usa_so c0) evs.
Proof.
  intros Hp Hm c0. unfold executar_consultas, bind at 1.
  destruct (makedirs_ok pasta_temp w Hp) as (w1 & -> & Hh & _).
  unfold bind at 1, conectar_ao_banco. rewrite Hh, Hm. fold c0.
  set (w2 := MkMundo _ _ _). unfold bind at 1. destruct paralela.
  - destruct workers as [|k].
    { unfold bind, fechar_conexao, registra, ret. simpl.
      eexists _, _, []. split_and!; [done | | done].
      simpl. by rewrite <- (assoc (++)). }
    destruct (executa_tarefas_usa_so c0 pasta_temp (escalonador amb consultas) w2)
      as (evs & He & Hf).
    destruct (executa_tarefas amb c0 pasta_temp (escalonador amb consultas) w2)
      as [futuros w3].
    unfold bind, fechar_conexao, registra, ret. simpl in *.
    eexists _, _, evs. split_and!; [done | | done].
    simpl. rewrite He. by rewrite <- !(assoc (++)).
  - destruct (laco_usa_so c0 pasta_temp consultas (∅, ∅) w2) as (evs & He & Hf).
    destruct (laco_sequencial amb c0 pasta_temp consultas (∅, ∅) w2) as [acc w3].
    unfold bind, fechar_conexao, registra, ret. simpl in *.
    eexists _, _, evs. split_and!; [done | | done].
    simpl. rewrite He. by rewrite <- !(assoc (++)).
Qed.

(** X3. No query stops the loop. The sequential loop over a list of
    queries is the loop over a first part of it followed by the loop
    over the rest, started with the dictionaries and in the state the
    first part left: every query of the list is run, in the order of the
    list. *)
Theorem X3_sequential_loop_composes c pasta_temp antes depois acc w :
  laco_sequencial amb c pasta_temp (antes ++ depois) acc w =
  laco_sequencial amb c pasta_temp depois
    (laco_sequencial amb c pasta_temp antes acc w).1
    (laco_sequencial amb c pasta_temp antes acc w).2.
Proof. apply laco_app. Qed.

(** X4. The pool at its edges. A pool cannot be created for a number
    of workers that is not positive: the parallel run then submits no
    task, reads no query and returns two empty dictionaries, having
    opened and closed its connection, where the sequential run would
    have run every query. With at least one worker and a single query,
    which no other task can interleave with, the parallel run is the
    sequential run. *)
Theorem X4_parallel_run_at_its_edges conexoes_config pasta_temp w :
  (∀ consultas,
      pasta_temp ≠ "" → motor amb (hist w) = None →
      let c0 := length (List.filter e_abertura (hist w)) in
      ∃ w',
        executar_consultas amb conexoes_config consultas pasta_temp true 0 w
          = (Ok (∅, ∅), w') ∧
        hist w' = hist w ++ [EAbre c0; EFecha c0]) ∧
  (∀ consulta workers workers',
      0 < workers → escalonador amb [consulta] = [consulta] →
      executar_consultas amb conexoes_config [consulta] pasta_temp true workers w
      = executar_consultas amb conexoes_config [consulta] pasta_temp false workers' w).
Proof.
  split.
  - intros consultas Hp Hm c0. unfold executar_consultas, bind at 1.
    destruct (makedirs_ok pasta_temp w Hp) as (w1 & -> & Hh & _).
    unfold bind at 1, conectar_ao_banco. rewrite Hh, Hm. fold c0.
    unfold bind, fechar_conexao, registra, ret. simpl.
    eexists. split; [done |]. simpl. by rewrite <- (assoc (++)).
  - intros consulta workers workers' Hw Hesc.
    destruct workers as [|k]; [lia |].
    unfold executar_consultas, bind at 1. unfold bind at 4.
    destruct (makedirs pasta_temp w) as [[[]|e] w1]; [| done].
    unfold bind at 1. unfold bind at 3.
    destruct (conectar_ao_banco amb w1) as [[c|e] w2]; [| done].
    unfold bind at 1. unfold bind at 2. rewrite Hesc.
    destruct (laco_funde c pasta_temp [consulta] (∅, ∅) w2) as [H1 H2].
    destruct (executa_tarefas amb c pasta_temp [consulta] w2) as [futuros w3].
    destruct (laco_sequencial amb c pasta_temp [consulta] (∅, ∅) w2) as [acc w4].
    simpl in *. by subst.
Qed.

Lemma junta_coerente pasta tarefas acc consulta p ps :
  resultado_coerente pasta tarefas acc →
  consulta ∈ tarefas →
  ((p = "" ∧ ps = ∅) ∨
   (p = PyStr.path_join pasta (nome_da_consulta consulta) ∧ p ≠ "" ∧
    ∀ x, x ∈ ps → ∃ m, x = PyStr.path_join p m)) →
  resultado_coerente pasta tarefas (junta acc (nome_da_consulta consulta, Some p, ps)).
Proof.
  intros Hacc Hin [[-> ->]|(Hp & Hne & Hps)]; [done |].
  unfold junta. simpl. destruct (String.eqb_spec p "") as [|_]; [done |]. simpl.
  intros n. cbn [fst snd]. destruct (decide (nome_da_consulta consulta = n)) as [<-|Hn].
  - rewrite !lookup_insert_eq. split_and!.
    + done.
    + intros p' [= <-]. split_and!; [done | done |]. by exists consulta.
    + intros ps' x [= <-] Hx. rewrite <- Hp. by apply Hps.
  - rewrite !lookup_insert_ne by done. apply Hacc.
Qed.

Lemma laco_coerente c pasta tarefas l :
  (∀ x, x ∈ l → x ∈ tarefas) →
  ∀ acc w, resultado_coerente pasta tarefas acc →
           resultado_coerente pasta tarefas (laco_sequencial amb c pasta l acc w).1.
Proof.
  induction l as [|consulta resto IH]; intros Hl acc w Hacc; [done |].
  destruct (laco_cons c pasta consulta resto acc w) as ([p ps] & w' & He & ->).
  apply IH; [intros x Hx; by apply Hl, list_elem_of_further |].
  apply junta_coerente; [done | apply Hl, list_elem_of_here |].
  destruct (executar_consulta_forma c (nome_da_consulta consulta)
              (consulta !! "query") pasta w) as (p' & ps' & w2 & He' & Hf).
  rewrite He in He'. by injection He' as <- <- <-.
Qed.

(** X5. What the result of a run holds. The two dictionaries have the
    same keys; each key is the name, its spaces removed, of one of the
    queries that were run; the path under a key is the temp root joined
    with that key, never the empty string; and every partition path
    under the key is that dataset root joined with one name. *)
Theorem X5_run_result_is_coherent
    conexoes_config consultas pasta_temp paralela workers w acc w' :
  executar_consultas amb conexoes_config consultas pasta_temp paralela workers w
    = (Ok acc, w') →
  resultado_coerente pasta_temp
    (if paralela then escalonador amb consultas else consultas) acc.
Proof.
  unfold executar_consultas, bind at 1.
  destruct (makedirs pasta_temp w) as [[[]|e] w1]; [| done].
  unfold bind at 1. destruct (conectar_ao_banco amb w1) as [[c|e] w2]; [| done].
  unfold bind at 1.
  assert (resultado_coerente pasta_temp
            (if paralela then escalonador amb consultas else consultas) (∅, ∅))
    as H0.
  { intros n. simpl. rewrite !lookup_empty. by split_and!. }
  destruct paralela.
  - destruct workers as [|k].
    { unfold bind, fechar_conexao, registra, ret. simpl. by intros [= <- <-]. }
    pose proof (laco_coerente c pasta_temp (escalonador amb consultas)
                  (escalonador amb consultas) (fun x H => H) (∅, ∅) w2 H0) as H.
    destruct (laco_funde c pasta_temp (escalonador amb consultas) (∅, ∅) w2)
      as [Hf _]. rewrite <- Hf in H.
    destruct (executa_tarefas amb c pasta_temp (escalonador amb consultas) w2)
      as [futuros w3].
    unfold bind, fechar_conexao, registra, ret. simpl. by intros [= <- <-].
  - pose proof (laco_coerente c pasta_temp consultas consultas (fun x H => H)
                  (∅, ∅) w2 H0) as H.
    destruct (laco_sequencial amb c pasta_temp consultas (∅, ∅) w2) as [acc0 w3].
    unfold bind, fechar_conexao, registra, ret. simpl. by intros [= <- <-].
Qed.

(** X6. The last query of a name decides its entry. In the sequential
    loop, a query that materializes and is followed by no query of the
    same name has its own dataset path and partition set in the result,
    whatever earlier queries (of the same name or not) returned. *)
Theorem X6_last_query_of_a_name_wins c pasta_temp antes consulta depois acc w p ps w' :
  (∀ x, x ∈ depois → nome_da_consulta x ≠ nome_da_consulta consulta) →
  executar_consulta amb c (nome_da_consulta consulta) (consulta !! "query") pasta_temp
    (laco_sequencial amb c pasta_temp antes acc w).2 = (Ok (p, ps), w') →
  p ≠ "" →
  let final := (laco_sequencial amb c pasta_temp (antes ++ consulta :: depois) acc w).1 in
  final.1 !! nome_da_consulta consulta = Some p ∧
  final.2 !! nome_da_consulta consulta = Some ps.
Proof. apply laco_irma. Qed.

(** ** Further properties of the materializer *)

Lemma remove_espacos_sem_espaco s a b :
  PyStr.remove_espacos s ≠ a +:+ String " " b.
Proof.
  revert a. induction s as [|x s IH]; intros a; cbn [PyStr.remove_espacos].
  - by destruct a.
  - destruct (Ascii.eqb_spec x " ") as [->|Hx]; [apply IH |].
    destruct a as [|y a].
    + change ("" +:+ String " " b) with (String " " b). congruence.
    + change (String y a +:+ String " " b) with (String y (a +:+ String " " b)).
      intros [= _ H]. by apply IH in H.
Qed.

Lemma remove_espacos_fixo s :
  (∀ a b, s ≠ a +:+ String " " b) → PyStr.remove_espacos s = s.
Proof.
  induction s as [|x s IH]; intros H; cbn [PyStr.remove_espacos]; [done |].
  destruct (Ascii.eqb_spec x " ") as [->|Hx].
  - by destruct (H "" s).
  - f_equal. apply IH. intros a b ->. by apply (H (String x a) b).
Qed.

Lemma remove_espacos_app a b :
  PyStr.remove_espacos (a +:+ b) = PyStr.remove_espacos a +:+ PyStr.remove_espacos b.
Proof.
  induction a as [|x a IH]; [done |].
  change (String x a +:+ b) with (String x (a +:+ b)). cbn [PyStr.remove_espacos].
  rewrite IH. by destruct (Ascii.eqb x " ").
Qed.

(** X11. Dataset names. The name under which a query is run has no
    space in it, so that removing the spaces again changes nothing; a
    query dict without a ["name"] key runs under the empty name; and two
    names that differ by a space only are the same dataset name, hence
    the same dataset root. *)
Theorem X11_dataset_name_has_no_space consulta :
  (∀ a b, nome_da_consulta consulta ≠ a +:+ String " " b) ∧
  PyStr.remove_espacos (nome_da_consulta consulta) = nome_da_consulta consulta ∧
  (consulta !! "name" = None → nome_da_consulta consulta = "") ∧
  (∀ s1 s2, nome_da_consulta (<["name" := s1 +:+ " " +:+ s2]> consulta)
            = nome_da_consulta (<["name" := s1 +:+ s2]> consulta)).
Proof.
  split_and!.
  - intros a b. apply remove_espacos_sem_espaco.
  - apply remove_espacos_fixo. intros a b. apply remove_espacos_sem_espaco.
  - unfold nome_da_consulta. by intros ->.
  - intros s1 s2. unfold nome_da_consulta. rewrite !lookup_insert_eq. simpl.
    by rewrite !remove_espacos_app.
Qed.

(** X12. The injected columns. On a frame with at least one column, the
    augmentation leaves a column [DataHoraAtualizacao] that holds the
    time stamp in every row and columns [idEmpresa] and [idEmp] that hold
    the configured tenant in every row, also when the query had columns
    of these names; every other column reads as before, and no column
    of the query is lost. *)
Theorem X12_injected_columns agora df :
  df ≠ [] →
  pl_col "DataHoraAtualizacao" (aumenta amb agora df)
    = Ok (replicate (altura df) (VTexto agora)) ∧
  pl_col "idEmpresa" (aumenta amb agora df) = Ok (replicate (altura df) (idemp amb)) ∧
  pl_col "idEmp" (aumenta amb agora df) = Ok (replicate (altura df) (idemp amb)) ∧
  (∀ n, n ∉ ["DataHoraAtualizacao"; "idEmpresa"; "idEmp"] →
        pl_col n (aumenta amb agora df) = pl_col n df) ∧
  (∀ n, n ∈ schema df → n ∈ schema (aumenta amb agora df)).
Proof.
  intros Hne. unfold aumenta, with_columns. cbn [foldl fst snd].
  assert (∀ v, pl_lit v df = replicate (altura df) v) as Hlit.
  { intros v. unfold pl_lit. by destruct df. }
  rewrite !Hlit. split_and!.
  - rewrite !pl_col_with_column_ne by done. apply pl_col_with_column.
  - rewrite pl_col_with_column_ne by done. apply pl_col_with_column.
  - apply pl_col_with_column.
  - intros n Hn. rewrite !pl_col_with_column_ne; [done | | |];
      intros ->; apply Hn; repeat constructor.
  - intros n Hn. by do 3 apply schema_with_column_mono.
Qed.

(** X13. Only [HoraVenda] is touched. When the [HoraVenda] block
    succeeds, the frame it leaves has the same labels in the same order
    and columns of the same length, and every column not labelled
    [HoraVenda] is the column of the raw result. *)
Theorem X13_only_hora_venda_changes df df' :
  normaliza_hora_venda df = Ok df' →
  Forall2 (fun c c' => c'.1 = c.1 ∧ serie_len c'.2 = serie_len c.2 ∧
                       (c.1 ≠ "HoraVenda" → c' = c)) df df'.
Proof.
  assert (∀ s, (∀ c, c ∈ df → c.1 = "HoraVenda" → serie_len c.2 = serie_len s) →
            Forall2 (fun c c' => c'.1 = c.1 ∧ serie_len c'.2 = serie_len c.2 ∧
                                 (c.1 ≠ "HoraVenda" → c' = c))
                    df (pd_setitem "HoraVenda" s df)) as Hset.
  { intros s Hs. unfold pd_setitem. apply Forall2_fmap_r, Forall_Forall2_diag.
    apply Forall_forall. intros c Hc. simpl.
    destruct (decide (c.1 = "HoraVenda")) as [Hn|Hn]; simpl; [| done].
    split_and!; [done | symmetry; by apply Hs | done]. }
  assert (Forall2 (fun c c' : string * Serie =>
                     c'.1 = c.1 ∧ serie_len c'.2 = serie_len c.2 ∧
                     (c.1 ≠ "HoraVenda" → c' = c)) df df) as Hid.
  { apply Forall_Forall2_diag, Forall_forall. by intros c _. }
  unfold normaliza_hora_venda. destruct (contem "HoraVenda" (pd_columns df)).
  2: { by intros [= <-]. }
  destruct (pd_getitem "HoraVenda" df) as [[xs|xs|xs]| |] eqn:E; try done.
  - by intros [= <-].
  - destruct (apply lambda_hora xs) as [ys|] eqn:Ea; [| done]. intros [= <-].
    apply Hset. intros c Hc Hn. rewrite (pd_getitem_uma _ _ _ _ E Hc Hn). simpl.
    symmetry. by eapply apply_length.
  - intros [= <-]. apply Hset. intros c Hc Hn.
    rewrite (pd_getitem_uma _ _ _ _ E Hc Hn). simpl. by rewrite length_fmap.
Qed.

Lemma substring_inteiro t : String.substring 0 (String.length t) t = t.
Proof. induction t as [|x t IH]; [done |]. simpl. by rewrite IH. Qed.

Lemma procura_hora_exata t :
  PyStr.casa_hora t = true → String.length t = 8 → PyStr.procura_hora t = Some t.
Proof.
  intros Hc Hl. destruct t as [|x t]; [done |]. cbn [PyStr.procura_hora].
  rewrite Hc. f_equal. rewrite <- Hl at 1. apply substring_inteiro.
Qed.

Lemma extrai_hora_idem v : extrai_hora (extrai_hora v) = extrai_hora v.
Proof.
  destruct (extrai_hora_forma v) as (t & -> & Hc & Hl).
  unfold extrai_hora. simpl. by rewrite procura_hora_exata.
Qed.

Lemma filter_setitem nome s (df : PdFrame) :
  filter (fun c : string * Serie => c.1 = nome) (pd_setitem nome s df)
  = (fun c : string * Serie => (c.1, s))
      <$> filter (fun c : string * Serie => c.1 = nome) df.
Proof.
  induction df as [|c df IH]; [done |]. unfold pd_setitem in *.
  rewrite fmap_cons, (filter_cons _ c).
  destruct (decide (c.1 = nome)) as [Hn|Hn].
  - rewrite (filter_cons _ (c.1, s)). cbn [fst]. rewrite decide_True by done.
    rewrite fmap_cons. f_equal. apply IH.
  - rewrite (filter_cons _ c). rewrite decide_False by done. apply IH.
Qed.

Lemma pd_getitem_setitem nome s s0 df :
  pd_getitem nome df = UmaSerie s0 →
  pd_getitem nome (pd_setitem nome s df) = UmaSerie s.
Proof.
  unfold pd_getitem. rewrite filter_setitem.
  by destruct (filter _ df) as [|[l s1] [|? ?]].
Qed.

Lemma pd_setitem_setitem nome s s' df :
  pd_setitem nome s (pd_setitem nome s' df) = pd_setitem nome s df.
Proof.
  unfold pd_setitem. rewrite <- list_fmap_compose. apply list_fmap_ext.
  intros i c _. simpl. destruct (decide (c.1 = nome)) as [Hn|Hn]; simpl.
  - by rewrite decide_True.
  - by rewrite decide_False.
Qed.

(** X14. Normalizing twice. Unless [HoraVenda] is a duration column,
    the frame the [HoraVenda] block leaves is a frame the block leaves
    as it is: a text once cut down to HH:MM:SS, or replaced by the
    sentinel, stays. *)
Theorem X14_text_normalization_is_idempotent df df1 :
  (∀ xs, pd_getitem "HoraVenda" df ≠ UmaSerie (STimedelta64 xs)) →
  normaliza_hora_venda df = Ok df1 →
  normaliza_hora_venda df1 = Ok df1.
Proof.
  intros Hnt. unfold normaliza_hora_venda at 1.
  destruct (contem "HoraVenda" (pd_columns df)) eqn:Ec.
  2: { intros [= <-]. unfold normaliza_hora_venda. by rewrite Ec. }
  destruct (pd_getitem "HoraVenda" df) as [[xs|xs|xs]| |] eqn:E; try done.
  - intros [= <-]. unfold normaliza_hora_venda. by rewrite Ec, E.
  - by destruct (Hnt xs).
  - intros [= <-]. unfold normaliza_hora_venda.
    rewrite pd_columns_setitem, Ec, (pd_getitem_setitem _ _ _ _ E).
    rewrite pd_setitem_setitem. do 2 f_equal. f_equal.
    rewrite <- list_fmap_compose. apply list_fmap_ext. intros i v _. simpl.
    apply extrai_hora_idem.
Qed.

(** X15. Writing into a dataset that exists. A successful
    materialization keeps every file the dataset root already held and
    adds its own after them: the rows of the dataset are then the rows it
    had plus the rows of the table written. *)
Theorem X15_materialization_adds_to_the_dataset df_pandas nome pasta_temp w r w' :
  processar_dados_corpo amb df_pandas nome pasta_temp w = (Ok r, w') →
  ∃ tabela novos,
    let raiz := PyStr.path_join pasta_temp nome in
    tabela_final amb df_pandas nome (relogio amb (hist w)) = Ok tabela ∧
    fs w' !! raiz = Some (default [] (fs w !! raiz) ++ novos) ∧
    total_linhas novos = altura tabela ∧
    total_linhas (default [] (fs w' !! raiz))
      = total_linhas (default [] (fs w !! raiz)) + altura tabela.
Proof.
  intros H. apply corpo_ok_inv in H as (tabela & _ & Ht & _ & _ & _ & Hfs & _).
  simpl in Hfs. eexists tabela, _. cbv zeta. split_and!; [done | exact Hfs | |].
  - apply total_novos_arquivos.
  - rewrite Hfs. simpl. unfold total_linhas at 1. rewrite sum_list_with_app.
    fold (total_linhas (default [] (fs w !! PyStr.path_join pasta_temp nome))).
    f_equal. apply total_novos_arquivos.
Qed.

Lemma substring_prefixo y r : String.substring 0 (String.length y) (y +:+ r) = y.
Proof.
  induction y as [|x y IH]; [apply substring_zero |].
  change (String x y +:+ r) with (String x (y +:+ r)). simpl. by rewrite IH.
Qed.

Lemma substring_salta y m r :
  String.substring (String.length y) m (y +:+ r) = String.substring 0 m r.
Proof.
  induction y as [|x y IH]; [done |].
  change (String x y +:+ r) with (String x (y +:+ r)). simpl. apply IH.
Qed.

Lemma pad_quatro (a : nat) :
  (Z.of_nat a ≤ 9999)%Z → String.length (PyStr.pad 4 a) = 4%nat.
Proof.
  intros Ha.
  assert (forallb (fun k => String.length (PyStr.pad 4 k) =? 4)%nat
                  (seq 0 (Z.to_nat 10000)) = true)
    as H by (vm_compute; reflexivity).
  rewrite forallb_forall in H. apply Nat.eqb_eq, H, in_seq. lia.
Qed.

Lemma pad_dois (m : nat) : (m < 100)%nat → String.length (PyStr.pad 2 m) = 2%nat.
Proof.
  intros Hm. pose proof (pad_dois_digitos m Hm) as H.
  by destruct (PyStr.pad 2 m) as [|a [|b [|? ?]]].
Qed.

(** X16. Year and month of a date. Where the text of a date cell is its
    ISO form, as for Python and polars, the derived [Ano] of a date with
    a year of at most four digits is that year on four digits and its
    [Mes] is the month on two digits. *)
Theorem X16_ano_mes_of_a_date a m d :
  texto_utf8 amb (VData a m d) = Some (py_str (VData a m d)) →
  (Z.of_nat a ≤ 9999)%Z → (m < 100)%nat →
  str_slice 0 4 (cast_utf8 amb (VData a m d)) = VTexto (PyStr.pad 4 a) ∧
  str_slice 5 2 (cast_utf8 amb (VData a m d)) = VTexto (PyStr.pad 2 m).
Proof.
  intros Ht Ha Hm. unfold cast_utf8. rewrite Ht. cbn [py_str str_slice].
  pose proof (pad_quatro a Ha) as H4. pose proof (pad_dois m Hm) as H2.
  split; f_equal.
  - rewrite <- H4 at 1. apply substring_prefixo.
  - change (PyStr.pad 4 a +:+ "-" +:+ PyStr.pad 2 m +:+ "-" +:+ PyStr.pad 2 d)
      with (PyStr.pad 4 a +:+ String "-" (PyStr.pad 2 m +:+ "-" +:+ PyStr.pad 2 d)).
    replace (PyStr.pad 4 a +:+ String "-" (PyStr.pad 2 m +:+ "-" +:+ PyStr.pad 2 d))
      with ((PyStr.pad 4 a +:+ "-") +:+ (PyStr.pad 2 m +:+ "-" +:+ PyStr.pad 2 d))
      by by rewrite append_assoc.
    assert (String.length (PyStr.pad 4 a +:+ "-") = 5) as H5.
    { clear -H4. revert H4. generalize (PyStr.pad 4 a). intros y.
      do 5 (destruct y as [|? y]; try done). }
    rewrite <- H5 at 1. rewrite substring_salta. rewrite <- H2 at 1.
    apply substring_prefixo.
Qed.

(** X17. Absolute dataset names. A dataset name that begins with the
    path separator makes the materializer write to, and report, the path
    that the name spells, the temp root playing no part; with any other
    name the dataset root begins with the temp root. *)
Theorem X17_dataset_root_and_temp_root df_pandas nome pasta_temp w raiz particoes w' :
  processar_dados_corpo amb df_pandas nome pasta_temp w = (Ok (raiz, particoes), w') →
  is_Some (fs w' !! raiz) ∧
  (PyStr.startswith_sep nome = true → raiz = nome) ∧
  (PyStr.startswith_sep nome = false → ∃ t, raiz = pasta_temp +:+ t).
Proof.
  intros H. apply corpo_ok_inv in H as (tabela & _ & _ & _ & _ & [= -> _] & Hfs & _).
  simpl in Hfs. split_and!; [by eexists | |]; unfold PyStr.path_join; intros ->.
  - done.
  - destruct (_ || _)%bool; by eexists.
Qed.


Lemma novo_arquivo_inv tabela pcols g a :
  a ∈ novos_arquivos amb tabela pcols g →
  ∃ j, j < altura tabela ∧ linhas a ≠ [] ∧
       dir a = dir_da_linha amb tabela pcols j.
Proof.
  unfold novos_arquivos. intros Ha.
  apply list_elem_of_fmap in Ha as ([d idx] & -> & Hg).
  apply agrupa_dir in Hg as (j & Hj & Hin & ->). exists j. simpl.
  split_and!; [done | | done]. destruct idx; [by apply elem_of_nil in Hin | done].
Qed.

(** X18. Where the files go. Every file a successful materialization
    adds to the dataset root holds at least one row and lies one
    directory below the root, [idEmpresa=...], for a dataset without a
    date column, and three directories below it, [idEmpresa=...],
    [Ano=...], [Mes=...] in this order, for a dataset with one. *)
Theorem X18_layout_of_the_files df_pandas nome pasta_temp w r w' a :
  processar_dados_corpo amb df_pandas nome pasta_temp w = (Ok r, w') →
  a ∈ default [] (fs w' !! PyStr.path_join pasta_temp nome) →
  a ∈ default [] (fs w !! PyStr.path_join pasta_temp nome) ∨
  (linhas a ≠ [] ∧
   ∃ t, match escolhe_coluna_data nome (pd_columns df_pandas) with
        | None => dir a = ["idEmpresa=" +:+ t]
        | Some _ =>
            ∃ ta tm, dir a = ["idEmpresa=" +:+ t; "Ano=" +:+ ta; "Mes=" +:+ tm]
        end).
Proof.
  intros H. apply corpo_ok_inv in H as (tabela & _ & _ & _ & _ & _ & Hfs & _).
  simpl in Hfs. rewrite Hfs. simpl. intros Ha.
  apply elem_of_app in Ha as [Ha|Ha]; [by left | right].
  apply novo_arquivo_inv in Ha as (j & _ & Hl & ->). split; [done |].
  unfold dir_da_linha, escolhe_coluna_data.
  destruct (String.eqb nome "Vendas" && contem "DataVenda" (pd_columns df_pandas))%bool.
  { eexists. eexists _, _. reflexivity. }
  destruct (String.eqb nome "Compras"
            && contem "DataEmissaoNF" (pd_columns df_pandas))%bool.
  { eexists. eexists _, _. reflexivity. }
  eexists. reflexivity.
Qed.

(** X19. One tenant, one partition. When the table handed to the
    writer has rows and still holds the configured tenant in every cell
    of [idEmpresa], a materialization into a dataset root that held
    nothing returns exactly one partition path, the root joined with
    the directory of that tenant, however many [Ano] and [Mes]
    directories lie below it. *)
Theorem X19_one_tenant_directory
    df_pandas nome pasta_temp w raiz particoes w' tabela :
  processar_dados_corpo amb df_pandas nome pasta_temp w = (Ok (raiz, particoes), w') →
  tabela_final amb df_pandas nome (relogio amb (hist w)) = Ok tabela →
  pl_col "idEmpresa" tabela = Ok (replicate (altura tabela) (idemp amb)) →
  0 < altura tabela →
  default [] (fs w !! PyStr.path_join pasta_temp nome) = [] →
  particoes = {[ PyStr.path_join raiz (segmento amb "idEmpresa" (idemp amb)) ]}.
Proof.
  intros H Ht Hcol Hpos Hvazio.
  apply corpo_ok_inv in H as (tabela' & _ & Ht' & _ & _ & [= -> ->] & _ & _).
  simpl in *. rewrite Ht in Ht'. injection Ht' as <-. rewrite Hvazio. simpl.
  set (pcols := partition_cols _).
  assert (∀ j, j < altura tabela →
               ∃ resto, dir_da_linha amb tabela pcols j
                        = segmento amb "idEmpresa" (idemp amb) :: resto) as Hhead.
  { intros j Hj. unfold dir_da_linha, pcols, partition_cols. rewrite fmap_app.
    eexists. cbn [fmap list_fmap app]. rewrite celula_pl_col, Hcol.
    by rewrite lookup_replicate_2. }
  apply set_eq. intros x.
  rewrite elem_of_list_to_set, elem_of_singleton, list_elem_of_fmap. split.
  - intros (n & -> & Hn). apply list_elem_of_fmap in Hn as (a & -> & Ha).
    apply novo_arquivo_inv in Ha as (j & Hj & _ & Hd).
    destruct (Hhead j Hj) as [resto Hr]. unfold topo. by rewrite Hd, Hr.
  - intros ->.
    destruct (agrupa_cobre (dir_da_linha amb tabela pcols) (altura tabela) 0 Hpos)
      as (idx & Hg & _).
    destruct (Hhead 0 Hpos) as [resto Hr]. rewrite Hr in Hg.
    eexists. split; [| apply list_elem_of_fmap; eexists; split; [reflexivity |];
                       apply list_elem_of_fmap; eexists; split; [reflexivity |];
                       exact Hg].
    reflexivity.
Qed.

End Provas.

(** * The theorems at concrete inputs *)

(** A computation that evaluates to a result has not raised. *)
Ltac nao_falha E :=
  exfalso;
  match type of E with
  | ?t = (Erro _, _) =>
      let Hok := fresh "Hok" in
      assert (sucedeu t.1 = true) as Hok by (vm_compute; reflexivity);
      rewrite E in Hok; discriminate Hok
  | ?t = Erro _ =>
      let Hok := fresh "Hok" in
      assert (sucedeu t = true) as Hok by (vm_compute; reflexivity);
      rewrite E in Hok; discriminate Hok
  end.


Lemma C9_shallow_listing_witness :
  ∃ particoes w',
    processar_dados_corpo amb_exemplo vendas_exemplo "Vendas" "tmp" mundo_vazio
      = (Ok ("tmp/Vendas", particoes), w') ∧
    ∃ tabela arqs,
      tabela_final amb_exemplo vendas_exemplo "Vendas" "15/03/2024 10:00:00" = Ok tabela ∧
      fs w' !! "tmp/Vendas" = Some arqs ∧
      (∀ x, x ∈ particoes ↔ ∃ a, a ∈ arqs ∧ x = PyStr.path_join "tmp/Vendas" (topo a)) ∧
      (∀ x, x ∈ particoes ↔
            ∃ i, i < altura tabela ∧
                 x = PyStr.path_join "tmp/Vendas"
                       (segmento amb_exemplo "idEmpresa" (celula tabela "idEmpresa" i))).
Proof.
  destruct (processar_dados_corpo amb_exemplo vendas_exemplo "Vendas" "tmp" mundo_vazio)
    as [[[raiz particoes]|e] w'] eqn:E.
  - destruct (C9_shallow_listing amb_exemplo vendas_exemplo "Vendas" "tmp"
                mundo_vazio raiz particoes w' E) as (-> & tabela & arqs & H1 & H2 & H3 & H4).
    exists particoes, w'. split; [reflexivity |].
    exists tabela, arqs. split_and!; [exact H1 | exact H2 | exact H3 |].
    apply H4. reflexivity.
  - nao_falha E.
Defined.

Lemma C7_partition_key_derivation_witness :
  escolhe_coluna_data "Vendas" ["Codigo"; "DataVenda"] = Some "DataVenda" ∧
  ∃ df',
    deriva_ano_mes amb_exemplo "DataVenda"
      [("Codigo", [VInt 10; VInt 12]); ("DataVenda", [VData 2024 3 15; VNulo])]
      = Ok df' ∧
    pl_col "Ano" df' = Ok [VTexto "2024"; VNulo] ∧
    pl_col "Mes" df' = Ok [VTexto "03"; VNulo].
Proof.
  split; [reflexivity |].
  destruct (C7_partition_key_derivation amb_exemplo "Vendas" ["Codigo"; "DataVenda"])
    as (_ & _ & H).
  apply (H "DataVenda"
           [("Codigo", [VInt 10; VInt 12]); ("DataVenda", [VData 2024 3 15; VNulo])]
           [VData 2024 3 15; VNulo]); reflexivity.
Defined.

Lemma C2_connection_errors_are_not_retried_witness :
  ∃ w',
    executar_consulta amb_exemplo 0 "Compras" (Some "select * from fora_do_ar") "tmp"
      mundo_vazio = (Ok ("", ∅), w') ∧
    hist w' = [] ++ [ELeitura 0 (Some "select * from fora_do_ar")] ∧
    fs w' = ∅.
Proof.
  apply (C2_connection_errors_are_not_retried amb_exemplo 0 "Compras"
           (Some "select * from fora_do_ar") "tmp" mundo_vazio).
  intros h. eexists. split; reflexivity.
Defined.


Lemma C5_no_retry_on_other_errors_witness :
  tentativas amb_exemplo [0; 1; 2; 3; 4] 0 "Vendas" (Some "select 1/0") "tmp" mundo_vazio
    = (Ok ("", ∅), MkMundo ∅ [ELeitura 0 (Some "select 1/0")] 0) ∧
  laco_sequencial amb_exemplo 0 "tmp"
    (consulta "Vendas" "select 1/0" :: duas_consultas) (∅, ∅) mundo_vazio
  = laco_sequencial amb_exemplo 0 "tmp" duas_consultas (∅, ∅)
      (MkMundo ∅ [ELeitura 0 (Some "select 1/0")] 0).
Proof.
  destruct (C5_no_retry_on_other_errors amb_exemplo 0 [1; 2; 3; 4] 0 "Vendas"
              (Some "select 1/0") "tmp" mundo_vazio) as (H1 & _ & H3).
  assert (tentativas amb_exemplo [0; 1; 2; 3; 4] 0 "Vendas" (Some "select 1/0") "tmp"
            mundo_vazio
          = (Ok ("", ∅), MkMundo ∅ [ELeitura 0 (Some "select 1/0")] 0)) as H.
  { apply (H1 (Exc OutraExcecao "division by zero")); [reflexivity | discriminate]. }
  split; [exact H |].
  apply (H3 (consulta "Vendas" "select 1/0") duas_consultas (∅, ∅)
            (MkMundo ∅ [ELeitura 0 (Some "select 1/0")] 0)).
  exact H.
Defined.

Lemma C6_empty_result_witness :
  ∃ acc w',
    executar_consultas amb_exemplo ∅
      (consulta "Com pras" "select * from compras" :: duas_consultas) "tmp" false 4
      mundo_vazio = (Ok acc, w') ∧
    acc.1 !! "Compras" = None ∧ acc.2 !! "Compras" = None.
Proof.
  destruct (C6_empty_result amb_exemplo) as [_ H].
  apply H.
  - discriminate.
  - reflexivity.
  - intros x Hx. apply list_elem_of_In, in_rev, list_elem_of_In. exact Hx.
  - intros c Hc Hn h k.
    apply elem_of_cons in Hc as [->|Hc].
    + exists compras_vazio. split; reflexivity.
    + apply elem_of_cons in Hc as [->|Hc]; [vm_compute in Hn; discriminate |].
      apply list_elem_of_singleton in Hc as ->. vm_compute in Hn. discriminate.
Defined.

Lemma C10_materializer_never_raises_witness :
  processar_dados amb_exemplo vendas_exemplo "SemEmpresa" "tmp" mundo_vazio
    = (Ok ("", ∅), MkMundo {["tmp" := []]} [] 0) ∧
  (tentativas amb_exemplo [0; 1; 2; 3; 4] 0 "SemEmpresa" (Some "select * from vendas")
     "tmp" mundo_vazio).1
  = (tentativas amb_exemplo [0; 1; 2; 3; 4] 0 "Compras" (Some "select * from compras")
     "tmp" mundo_vazio).1.
Proof.
  destruct (C10_materializer_never_raises amb_exemplo) as [H1 H2].
  assert (processar_dados_corpo amb_exemplo vendas_exemplo "SemEmpresa" "tmp" mundo_vazio
          = (Erro (Exc ValueError msg_id_empresa), MkMundo {["tmp" := []]} [] 0)) as Hc.
  { vm_compute. reflexivity. }
  split.
  - destruct (H1 vendas_exemplo "SemEmpresa" "tmp" mundo_vazio) as (r & w' & -> & Hr).
    by destruct (Hr _ _ Hc) as [-> ->].
  - rewrite (H2 0 [1; 2; 3; 4] 0 "SemEmpresa" (Some "select * from vendas") "tmp"
               mundo_vazio vendas_exemplo).
    + rewrite (H2 0 [1; 2; 3; 4] 0 "Compras" (Some "select * from compras") "tmp"
                 mundo_vazio compras_vazio); [reflexivity | reflexivity | by left].
    + reflexivity.
    + right. eexists _, _. vm_compute. reflexivity.
Defined.

Lemma C3_parallel_tasks_share_the_session_witness :
  ∃ acc w',
    executar_consultas amb_exemplo ∅ duas_consultas "tmp" true 2 mundo_vazio
      = (Ok acc, w') ∧
    ∃ evs, hist w' = [EAbre 0] ++ evs ++ [EFecha 0] ∧ Forall (usa_so 0) evs.
Proof.
  destruct (executar_consultas amb_exemplo ∅ duas_consultas "tmp" true 2 mundo_vazio)
    as [[acc|e] w'] eqn:E.
  - exists acc, w'. split; [reflexivity |].
    apply (C3_parallel_tasks_share_the_session amb_exemplo ∅ duas_consultas "tmp" 2
             mundo_vazio acc w' E).
  - nao_falha E.
Defined.

Lemma X1_run_fails_before_queries_witness :
  ∃ w1,
    executar_consultas amb_sem_banco ∅ duas_consultas "tmp" false 4 mundo_vazio
      = (Erro (Exc OperationalError "could not connect to server"), w1) ∧
    hist w1 = [] ∧ is_Some (fs w1 !! "tmp").
Proof.
  destruct (X1_run_fails_before_queries amb_sem_banco ∅ duas_consultas false 4
              mundo_vazio) as [_ H].
  destruct (H "tmp" (Exc OperationalError "could not connect to server"))
    as (w1 & H1 & H2 & H3 & _).
  - discriminate.
  - reflexivity.
  - exists w1. split_and!; [exact H1 | exact H2 | exact H3].
Defined.

Lemma X2_run_returns_and_closes_witness :
  ∃ acc w' evs,
    executar_consultas amb_exemplo ∅ duas_consultas "tmp" false 4 mundo_vazio
      = (Ok acc, w') ∧
    hist w' = [] ++ [EAbre 0] ++ evs ++ [EFecha 0] ∧
    Forall (usa_so 0) evs.
Proof.
  apply (X2_run_returns_and_closes amb_exemplo ∅ duas_consultas "tmp" false 4
           mundo_vazio).
  - discriminate.
  - reflexivity.
Defined.

Lemma X4_parallel_run_at_its_edges_witness :
  (∃ w',
     executar_consultas amb_exemplo ∅ duas_consultas "tmp" true 0 mundo_vazio
       = (Ok (∅, ∅), w') ∧
     hist w' = [] ++ [EAbre 0; EFecha 0]) ∧
  executar_consultas amb_exemplo ∅ [consulta "Vendas" "select * from vendas"]
    "tmp" true 2 mundo_vazio
  = executar_consultas amb_exemplo ∅ [consulta "Vendas" "select * from vendas"]
      "tmp" false 4 mundo_vazio.
Proof.
  destruct (X4_parallel_run_at_its_edges amb_exemplo ∅ "tmp" mundo_vazio) as [H1 H2].
  split.
  - apply (H1 duas_consultas); [discriminate | reflexivity].
  - apply (H2 (consulta "Vendas" "select * from vendas") 2 4); [lia | reflexivity].
Defined.

Lemma X5_run_result_is_coherent_witness :
  ∃ acc w',
    executar_consultas amb_exemplo ∅ duas_consultas "tmp" false 4 mundo_vazio
      = (Ok acc, w') ∧
    resultado_coerente "tmp" duas_consultas acc.
Proof.
  destruct (executar_consultas amb_exemplo ∅ duas_consultas "tmp" false 4 mundo_vazio)
    as [[acc|e] w'] eqn:E.
  - exists acc, w'. split; [reflexivity |].
    apply (X5_run_result_is_coherent amb_exemplo ∅ duas_consultas "tmp" false 4
             mundo_vazio acc w' E).
  - nao_falha E.
Defined.

Lemma X6_last_query_of_a_name_wins_witness :
  ∃ ps,
    (laco_sequencial amb_exemplo 0 "tmp"
       ([consulta "Vendas" "select * from clientes"]
        ++ consulta "Ven das" "select * from vendas"
        :: [consulta "Clientes" "select * from clientes"])
       (∅, ∅) mundo_vazio).1.2 !! "Vendas" = Some ps ∧
    "tmp/Vendas/idEmpresa=7" ∈ ps.
Proof.
  destruct (executar_consulta amb_exemplo 0 "Vendas" (Some "select * from vendas") "tmp"
              (laco_sequencial amb_exemplo 0 "tmp"
                 [consulta "Vendas" "select * from clientes"] (∅, ∅) mundo_vazio).2)
    as [[[p ps]|e] w'] eqn:E.
  - assert (p = "tmp/Vendas" ∧ ps = {["tmp/Vendas/idEmpresa=7"]}) as [Hp Hps].
    { assert ((executar_consulta amb_exemplo 0 "Vendas" (Some "select * from vendas")
                 "tmp"
                 (laco_sequencial amb_exemplo 0 "tmp"
                    [consulta "Vendas" "select * from clientes"] (∅, ∅)
                    mundo_vazio).2).1
              = Ok ("tmp/Vendas", {["tmp/Vendas/idEmpresa=7"]})) as Hr
        by (vm_compute; reflexivity).
      rewrite E in Hr. cbn [fst] in Hr. injection Hr as Hp Hps.
      split; [exact Hp | exact Hps]. }
    exists ps. split.
    + apply (X6_last_query_of_a_name_wins amb_exemplo 0 "tmp"
               [consulta "Vendas" "select * from clientes"]
               (consulta "Ven das" "select * from vendas")
               [consulta "Clientes" "select * from clientes"]
               (∅, ∅) mundo_vazio p ps w').
      * intros x Hx. apply list_elem_of_singleton in Hx as ->. vm_compute. discriminate.
      * exact E.
      * rewrite Hp. discriminate.
    + rewrite Hps. apply elem_of_singleton. reflexivity.
  - nao_falha E.
Defined.


Lemma X11_dataset_name_has_no_space_witness :
  nome_da_consulta (∅ : gmap string string) = "" ∧
  nome_da_consulta (<["name" := "Ven" +:+ " " +:+ "das"]> ∅)
  = nome_da_consulta (<["name" := "Ven" +:+ "das"]> ∅).
Proof.
  destruct (X11_dataset_name_has_no_space ∅) as (_ & _ & H3 & H4).
  split; [apply H3; reflexivity | apply (H4 "Ven" "das")].
Defined.

Lemma X12_injected_columns_witness :
  pl_col "idEmpresa"
    (aumenta amb_exemplo "15/03/2024 10:00:00"
       [("Codigo", [VInt 1; VInt 2]); ("idEmpresa", [VInt 99; VInt 98])])
  = Ok [VInt 7; VInt 7] ∧
  pl_col "Codigo"
    (aumenta amb_exemplo "15/03/2024 10:00:00"
       [("Codigo", [VInt 1; VInt 2]); ("idEmpresa", [VInt 99; VInt 98])])
  = Ok [VInt 1; VInt 2].
Proof.
  destruct (X12_injected_columns amb_exemplo "15/03/2024 10:00:00"
              [("Codigo", [VInt 1; VInt 2]); ("idEmpresa", [VInt 99; VInt 98])])
    as (_ & H2 & _ & H4 & _).
  - discriminate.
  - split; [exact H2 |]. rewrite (H4 "Codigo"); [reflexivity |].
    intros H. vm_compute in H. by repeat (inversion_clear H as [|? ? ? H']; rename H' into H).
Defined.

Lemma X13_only_hora_venda_changes_witness :
  ∃ df',
    normaliza_hora_venda clientes_exemplo = Ok df' ∧
    Forall2 (fun c c' => c'.1 = c.1 ∧ serie_len c'.2 = serie_len c.2 ∧
                         (c.1 ≠ "HoraVenda" → c' = c)) clientes_exemplo df'.
Proof.
  destruct (normaliza_hora_venda clientes_exemplo) as [df'|e] eqn:E.
  - exists df'. split; [reflexivity |].
    apply (X13_only_hora_venda_changes clientes_exemplo df' E).
  - nao_falha E.
Defined.

Lemma X14_text_normalization_is_idempotent_witness :
  ∃ df1,
    normaliza_hora_venda clientes_exemplo = Ok df1 ∧
    normaliza_hora_venda df1 = Ok df1.
Proof.
  destruct (normaliza_hora_venda clientes_exemplo) as [df1|e] eqn:E.
  - exists df1. split; [reflexivity |].
    apply (X14_text_normalization_is_idempotent clientes_exemplo df1); [| exact E].
    intros xs H. vm_compute in H. discriminate.
  - nao_falha E.
Defined.

Lemma X15_materialization_adds_to_the_dataset_witness :
  ∃ r w' tabela novos,
    processar_dados_corpo amb_exemplo vendas_exemplo "Vendas" "tmp" mundo_com_vendas
      = (Ok r, w') ∧
    tabela_final amb_exemplo vendas_exemplo "Vendas" "15/03/2024 10:00:00" = Ok tabela ∧
    fs w' !! "tmp/Vendas"
      = Some (default [] (fs mundo_com_vendas !! "tmp/Vendas") ++ novos) ∧
    total_linhas (default [] (fs w' !! "tmp/Vendas")) = 1 + altura tabela.
Proof.
  destruct (processar_dados_corpo amb_exemplo vendas_exemplo "Vendas" "tmp"
              mundo_com_vendas) as [[r|e] w'] eqn:E.
  - destruct (X15_materialization_adds_to_the_dataset amb_exemplo vendas_exemplo
                "Vendas" "tmp" mundo_com_vendas r w' E)
      as (tabela & novos & H1 & H2 & _ & H4).
    exists r, w', tabela, novos. split_and!; [reflexivity | exact H1 | exact H2 |].
    exact H4.
  - nao_falha E.
Defined.

Lemma X16_ano_mes_of_a_date_witness :
  str_slice 0 4 (cast_utf8 amb_exemplo (VData 2024 3 15)) = VTexto "2024" ∧
  str_slice 5 2 (cast_utf8 amb_exemplo (VData 2024 3 15)) = VTexto "03".
Proof.
  apply (X16_ano_mes_of_a_date amb_exemplo 2024 3 15).
  - reflexivity.
  - vm_compute. discriminate.
  - lia.
Defined.

Lemma X17_dataset_root_and_temp_root_witness :
  ∃ raiz particoes w',
    processar_dados_corpo amb_exemplo vendas_exemplo "/fora" "tmp" mundo_vazio
      = (Ok (raiz, particoes), w') ∧
    raiz = "/fora" ∧ is_Some (fs w' !! raiz).
Proof.
  destruct (processar_dados_corpo amb_exemplo vendas_exemplo "/fora" "tmp" mundo_vazio)
    as [[[raiz particoes]|e] w'] eqn:E.
  - destruct (X17_dataset_root_and_temp_root amb_exemplo vendas_exemplo "/fora" "tmp"
                mundo_vazio raiz particoes w' E) as (H1 & H2 & _).
    exists raiz, particoes, w'. split_and!; [reflexivity | | exact H1].
    apply H2. reflexivity.
  - nao_falha E.
Defined.

Lemma X18_layout_of_the_files_witness :
  ∃ r w',
    processar_dados_corpo amb_exemplo vendas_exemplo "Vendas" "tmp" mundo_vazio
      = (Ok r, w') ∧
    ∀ a, a ∈ default [] (fs w' !! "tmp/Vendas") →
         linhas a ≠ [] ∧
         ∃ t ta tm, dir a = ["idEmpresa=" +:+ t; "Ano=" +:+ ta; "Mes=" +:+ tm].
Proof.
  destruct (processar_dados_corpo amb_exemplo vendas_exemplo "Vendas" "tmp" mundo_vazio)
    as [[r|e] w'] eqn:E.
  - exists r, w'. split; [reflexivity |]. intros a Ha.
    destruct (X18_layout_of_the_files amb_exemplo vendas_exemplo "Vendas" "tmp"
                mundo_vazio r w' a E Ha) as [H|(H1 & t & ta & tm & H2)].
    + exfalso. revert H. exact (not_elem_of_nil a).
    + split; [exact H1 |]. exists t, ta, tm. exact H2.
  - nao_falha E.
Defined.

Lemma X19_one_tenant_directory_witness :
  ∃ raiz particoes w',
    processar_dados_corpo amb_exemplo vendas_exemplo "Vendas" "tmp" mundo_vazio
      = (Ok (raiz, particoes), w') ∧
    particoes = {[ PyStr.path_join raiz "idEmpresa=7" ]}.
Proof.
  destruct (processar_dados_corpo amb_exemplo vendas_exemplo "Vendas" "tmp" mundo_vazio)
    as [[[raiz particoes]|e] w'] eqn:E.
  - exists raiz, particoes, w'. split; [reflexivity |].
    apply (X19_one_tenant_directory amb_exemplo vendas_exemplo "Vendas" "tmp"
             mundo_vazio raiz particoes w' tabela_vendas E).
    + vm_compute. reflexivity.
    + vm_compute. reflexivity.
    + vm_compute. lia.
    + reflexivity.
  - nao_falha E.
Defined.

(** * Examples *)

Example remove_espacos_ex : PyStr.remove_espacos " Vendas Mes " = "VendasMes".
Proof. reflexivity. Qed.

Example split_ex : PyStr.split "-1 days +23:59:59" = ["-1"; "days"; "+23:59:59"].
Proof. reflexivity. Qed.

Example path_join_ex :
  (PyStr.path_join "tmp" "Vendas", PyStr.path_join "tmp/" "Vendas",
   PyStr.path_join "tmp" "/abs", PyStr.path_join "" "Vendas")
  = ("tmp/Vendas", "tmp/Vendas", "/abs", "Vendas").
Proof. reflexivity. Qed.

Example procura_hora_ex :
  (PyStr.procura_hora "as 14:30:05.123 e 15:00:00", PyStr.procura_hora "14h30")
  = (Some "14:30:05", None).
Proof. reflexivity. Qed.

Example str_timedelta_ex :
  (str_timedelta 52200000000000, str_timedelta 1500000000,
   str_timedelta (-1000000000), str_timedelta 90000000000001)
  = ("0 days 14:30:00", "0 days 00:00:01.500000", "-1 days +23:59:59",
     "1 days 01:00:00.000000001").
Proof. vm_compute. reflexivity. Qed.

(** The three sales go to two partition directories, the one without a
    date to the default partition; only the tenant level is reported. *)
Example materializa_vendas :
  let r := processar_dados amb_exemplo vendas_exemplo "Vendas" "tmp" mundo_vazio in
  r.1 = Ok ("tmp/Vendas", {["tmp/Vendas/idEmpresa=7"]}) ∧
  dir <$> default [] (fs r.2 !! "tmp/Vendas")
  = [["idEmpresa=7"; "Ano=2024"; "Mes=03"];
     ["idEmpresa=7"; "Ano=__HIVE_DEFAULT_PARTITION__";
      "Mes=__HIVE_DEFAULT_PARTITION__"]] ∧
  (fun a => length (linhas a)) <$> default [] (fs r.2 !! "tmp/Vendas") = [2; 1].
Proof. cbv zeta. split_and!; vm_compute; reflexivity. Qed.

(** Sequential mode: three rows for [Vendas], none for [Compras]. *)
Example execucao_sequencial :
  let r :=
    executar_consultas amb_exemplo ∅
      [consulta "Vendas" "select * from vendas";
       consulta "Compras" "select * from compras"] "tmp" false 4 mundo_vazio in
  entradas r.1 "Vendas"
    = Some (Some "tmp/Vendas", Some {["tmp/Vendas/idEmpresa=7"]}) ∧
  entradas r.1 "Compras" = Some (None, None) ∧
  hist r.2 = [EAbre 0; ELeitura 0 (Some "select * from vendas");
              ELeitura 0 (Some "select * from compras"); EFecha 0].
Proof. cbv zeta. split_and!; vm_compute; reflexivity. Qed.

(** Parallel mode with two workers: [Compras] loses its connection and
    is given up after one read, without a sleep; [Vendas] completes all
    the same. *)
Example execucao_paralela :
  let r :=
    executar_consultas amb_exemplo ∅
      [consulta "Vendas" "select * from vendas";
       consulta "Compras" "select * from fora_do_ar"] "tmp" true 2 mundo_vazio in
  entradas r.1 "Vendas"
    = Some (Some "tmp/Vendas", Some {["tmp/Vendas/idEmpresa=7"]}) ∧
  entradas r.1 "Compras" = Some (None, None) ∧
  hist r.2 = [EAbre 0; ELeitura 0 (Some "select * from fora_do_ar");
              ELeitura 0 (Some "select * from vendas"); EFecha 0].
Proof. cbv zeta. split_and!; vm_compute; reflexivity. Qed.

(** A dataset whose type adjustment drops the tenant column fails alone. *)
Example execucao_sem_empresa :
  let r :=
    executar_consultas amb_exemplo ∅
      [consulta "SemEmpresa" "select * from vendas";
       consulta "Vendas" "select * from vendas"] "tmp" false 4 mundo_vazio in
  entradas r.1 "SemEmpresa" = Some (None, None) ∧
  entradas r.1 "Vendas"
    = Some (Some "tmp/Vendas", Some {["tmp/Vendas/idEmpresa=7"]}) ∧
  fs r.2 !! "tmp/SemEmpresa" = None.
Proof. cbv zeta. split_and!; vm_compute; reflexivity. Qed.

(** A partition value with a blank and a slash, as the writer spells it. *)
Example segmento_ex :
  segmento amb_exemplo "idEmpresa" (VTexto "ACME 01/a") = "idEmpresa=ACME%2001%2Fa".
Proof. reflexivity. Qed.
